(** * Fuzzy schema / value reconciliation: a shallow embedding

    The development follows the Python sources
      legacy_code/column_matcher (1).py   (scorer wrappers, best match)
      legacy_code/schema_config.py        (canonical vocabularies)
      legacy_code/data_cleaner.py         (basic cleaner, value normalizer)
      legacy_code/data_loader.py          (column reconciliation, coercion,
                                           validation, column types)
      legacy_code/routes.py               (the handlers that call the loader)
    Python [str] values are sequences of characters with code points below
    256, written as Rocq strings; similarity scores are exact rationals. *)

From Stdlib Require Import List String Ascii Bool Arith NArith ZArith QArith Lia.
From Equations Require Import Equations.
Import ListNotations.

Set Implicit Arguments.

(* ===================================================================== *)
(** ** Python strings *)
(* ===================================================================== *)

Module PyStr.

Definition chars := list ascii.

Definition code (c : ascii) : N := N_of_ascii c.

Definition in_range (lo hi : N) (c : ascii) : bool :=
  (N.leb lo (code c) && N.leb (code c) hi)%bool.

(** The regular-expression classes [[A-Z]], [[a-z]], [[0-9]]. *)
Definition is_upper (c : ascii) : bool := in_range 65 90 c.
Definition is_lower (c : ascii) : bool := in_range 97 122 c.
Definition is_digit (c : ascii) : bool := in_range 48 57 c.
Definition is_alnum (c : ascii) : bool :=
  (is_lower c || is_upper c || is_digit c)%bool.

Definition underscore : ascii := "_"%char.
Definition space : ascii := " "%char.
Definition newline : ascii := "010"%char.

Definition is_us (c : ascii) : bool := Ascii.eqb c underscore.

(** [str.isspace] on one character (code points below 256). *)
Definition is_space (c : ascii) : bool :=
  (in_range 9 13 c || in_range 28 32 c
   || N.eqb (code c) 133 || N.eqb (code c) 160)%bool.

(** [str.lower] on one character: the ASCII capitals and the Latin-1
    capitals other than the multiplication sign move up by 32. *)
Definition lower_char (c : ascii) : ascii :=
  if (is_upper c
      || (in_range 192 222 c && negb (N.eqb (code c) 215)))%bool
  then ascii_of_N (code c + 32) else c.

Definition lower (s : chars) : chars := map lower_char s.

(** [s.lstrip(ch)], [s.rstrip(ch)], [s.strip(ch)] for a class of
    characters given as a predicate. *)
Fixpoint lstrip (p : ascii -> bool) (s : chars) : chars :=
  match s with
  | c :: t => if p c then lstrip p t else s
  | [] => []
  end.

Fixpoint rstrip (p : ascii -> bool) (s : chars) : chars :=
  match s with
  | [] => []
  | c :: t =>
      match rstrip p t with
      | [] => if p c then [] else [c]
      | t' => c :: t'
      end
  end.

Definition strip (p : ascii -> bool) (s : chars) : chars :=
  rstrip p (lstrip p s).

(** [s.replace(a, b)] for single characters. *)
Definition replace_char (a b : ascii) (s : chars) : chars :=
  map (fun c => if Ascii.eqb c a then b else c) s.

(** The longest prefix whose characters satisfy [p], and the rest. *)
Fixpoint span (p : ascii -> bool) (s : chars) : chars * chars :=
  match s with
  | c :: t =>
      if p c then let '(run, rest) := span p t in (c :: run, rest)
      else ([], s)
  | [] => ([], [])
  end.

Definition of_string : string -> chars := list_ascii_of_string.
Definition to_string : chars -> string := string_of_list_ascii.

End PyStr.

(* ===================================================================== *)
(** ** data_cleaner.py : header normalization *)
(* ===================================================================== *)

Module SnakeCase.
Import PyStr.

(** [re.sub('(.)([A-Z][a-z]+)', r'\1_\2', s)]: scanning from the left,
    a match starts at a character other than newline that is followed
    by a capital and at least one lower-case letter; the match takes
    the whole lower-case run, and scanning resumes after it. *)
Equations? sub_word_start (s : chars) : chars by wf (List.length s) lt :=
  sub_word_start [] := [];
  sub_word_start (c :: u :: l :: rest)
    with (negb (Ascii.eqb c newline) && is_upper u && is_lower l)%bool => {
    | true  := c :: underscore :: u :: l ::
                 fst (span is_lower rest)
                 ++ sub_word_start (snd (span is_lower rest));
    | false := c :: sub_word_start (u :: l :: rest) };
  sub_word_start (c :: t) := c :: sub_word_start t.
Proof.
  all: try (simpl; lia).
  match goal with |- context [span is_lower ?r] =>
    assert (H : (List.length (snd (span is_lower r)) <= List.length r)%nat);
    [ clear; induction r as [|x r IH]; simpl; [lia|];
      destruct (is_lower x); [|simpl; lia];
      destruct (span is_lower r) as [run rest']; simpl in *; lia
    | simpl; lia ]
  end.
Qed.

(** [re.sub('([a-z0-9])([A-Z])', r'\1_\2', s)]. *)
Fixpoint sub_case_boundary (s : chars) : chars :=
  match s with
  | [] => []
  | a :: t =>
      match t with
      | b :: t' =>
          if ((is_lower a || is_digit a) && is_upper b)%bool
          then a :: underscore :: b :: sub_case_boundary t'
          else a :: sub_case_boundary t
      | [] => [a]
      end
  end.

(** [re.sub(r'[^a-zA-Z0-9]', '_', s)]. *)
Definition sub_non_alnum (s : chars) : chars :=
  map (fun c => if is_alnum c then c else underscore) s.

(** [re.sub(r'_+', '_', s)]. *)
Equations? sub_underscores (s : chars) : chars by wf (List.length s) lt :=
  sub_underscores [] := [];
  sub_underscores (c :: t) with is_us c => {
    | true  := underscore :: sub_underscores (lstrip is_us t);
    | false := c :: sub_underscores t }.
Proof.
  all: try (simpl; lia).
  match goal with |- context [lstrip is_us ?r] =>
    assert (H : (List.length (lstrip is_us r) <= List.length r)%nat);
    [ clear; induction r as [|x r IH]; simpl; [lia|];
      destruct (is_us x); simpl; lia
    | simpl; lia ]
  end.
Qed.

(** [to_snake_case(name)] on the characters of [name]. *)
Definition to_snake_case_chars (name : chars) : chars :=
  let s1 := sub_word_start name in
  let s2 := sub_case_boundary s1 in
  let s3 := sub_non_alnum s2 in
  strip is_us (lower (sub_underscores s3)).

Definition to_snake_case (name : string) : string :=
  to_string (to_snake_case_chars (of_string name)).

End SnakeCase.

(* ===================================================================== *)
(** ** Python values, exceptions and dictionaries *)
(* ===================================================================== *)

Module Py.

(** The exceptions the modelled code raises or lets through. *)
Inductive exn : Type :=
| FileNotFoundError (msg : string)
| ValueError (msg : string)
| TypeError (msg : string)
| AttributeError (msg : string)
| KeyError (msg : string)
| OverflowError (msg : string)
| ParserError (msg : string)
| OtherError (msg : string).

(** Outcome of a call: a value, or an exception in flight. *)
Inductive result (A : Type) : Type :=
| Ok (a : A)
| Raise (e : exn).
Arguments Ok {A} a.
Arguments Raise {A} e.

Definition bind {A B} (r : result A) (k : A -> result B) : result B :=
  match r with
  | Ok a => k a
  | Raise e => Raise e
  end.

(** [try: body  except Exception: handler]. *)
Definition try_except {A} (body : result A) (handler : exn -> result A)
  : result A :=
  match body with
  | Ok a => Ok a
  | Raise e => handler e
  end.

(** Scalars held by a column. [VNone], [VNaN] and [VNA] are the missing
    markers recognised by [pd.isnull]; [VInf] is a float infinity, which
    is not missing. *)
Inductive value : Type :=
| VNone
| VNaN
| VNA
| VStr (s : string)
| VInt (z : Z)
| VFloat (q : Q)
| VInf (negative : bool)
| VBool (b : bool).

Definition isnull (v : value) : bool :=
  match v with
  | VNone | VNaN | VNA => true
  | _ => false
  end.

(** [isinstance(v, str)]. *)
Definition is_str (v : value) : bool :=
  match v with
  | VStr _ => true
  | _ => false
  end.

(** A [dict] with string keys: insertion-ordered, assignment to a key
    already present overwrites its value and keeps its position. *)
Definition dict (V : Type) : Type := list (string * V).

Fixpoint dict_set {V} (k : string) (v : V) (d : dict V) : dict V :=
  match d with
  | [] => [(k, v)]
  | (k', v') :: d' =>
      if String.eqb k' k then (k', v) :: d'
      else (k', v') :: dict_set k v d'
  end.

Fixpoint dict_get {V} (k : string) (d : dict V) : option V :=
  match d with
  | [] => None
  | (k', v') :: d' => if String.eqb k' k then Some v' else dict_get k d'
  end.

Definition dict_keys {V} (d : dict V) : list string := map fst d.

End Py.

Declare Scope py_scope.
Delimit Scope py_scope with py.
Notation "x <- c1 ;; c2" := (Py.bind c1 (fun x => c2))
  (at level 61, c1 at next level, right associativity) : py_scope.
Notation "' pat <- c1 ;; c2" :=
  (Py.bind c1 (fun x => match x with pat => c2 end))
  (at level 61, pat pattern, c1 at next level, right associativity) : py_scope.

(* ===================================================================== *)
(** ** The rapidfuzz collaborator *)
(* ===================================================================== *)

(** The two scorers of [rapidfuzz.fuzz] the repository calls. The code is
    embedded over an arbitrary pair of scorers; [RapidFuzz.lib] below is
    the concrete library. *)
Record FuzzLib : Type := {
  fuzz_token_sort_ratio : string -> string -> Q;
  fuzz_WRatio : string -> string -> Q
}.

Module Process.
Import Py.

Definition Scorer : Type := string -> string -> Q.

(** The running best of [process.extractOne]: choice, score, index. *)
Definition hit : Type := (string * Q * nat)%type.

(** [process.extractOne(query, choices, scorer=scorer)] with the default
    processor and no score cutoff: the choices are scored in order, a
    choice replaces the running best only with a strictly larger score,
    the scan stops at a perfect score of 100, and [None] is returned
    when there is no choice. The scorer is one the library can call, as
    its own scorers are: a function of the query and the choice. *)
Fixpoint extractOne_from (scorer : Scorer) (query : string)
         (choices : list string) (i : nat) (best : option hit)
  : option hit :=
  match choices with
  | [] => best
  | c :: rest =>
      let score := scorer query c in
      let best' :=
        match best with
        | None => Some (c, score, i)
        | Some (_, bscore, _) =>
            if Qle_bool score bscore then best else Some (c, score, i)
        end in
      if Qeq_bool score 100 then best'
      else extractOne_from scorer query rest (S i) best'
  end.

Definition extractOne (scorer : Scorer) (query : string)
           (choices : list string) : option hit :=
  extractOne_from scorer query choices 0 None.

(** A Python function handed over as [scorer]: its name, whether its
    signature takes the keyword [score_cutoff], and what it computes from
    its two positional arguments. *)
Record function : Type := {
  fn_name : string;
  accepts_score_cutoff : bool;
  fn_body : Scorer
}.

(** [scorer(query, choice, score_cutoff=score_cutoff)], the call
    [extractOne] makes for a scorer written in Python. A function without
    that keyword refuses the call; one with it is taken to compute its
    score from the two strings alone. *)
Definition call_scorer (scorer : function) (query choice : string)
  : result Q :=
  if accepts_score_cutoff scorer then Ok (fn_body scorer query choice)
  else Raise (TypeError
                (fn_name scorer
                 ++ "() got an unexpected keyword argument 'score_cutoff'")%string).

(** [process.extractOne(query, choices, scorer=scorer)] for a function
    object: the scan of [extractOne_from], every score being asked of the
    function by a call, so that with no choice no call is made. *)
Fixpoint extractOne_calls (scorer : function) (query : string)
         (choices : list string) (i : nat) (best : option hit)
  : result (option hit) :=
  match choices with
  | [] => Ok best
  | c :: rest =>
      bind (call_scorer scorer query c)
        (fun score =>
           let best' :=
             match best with
             | None => Some (c, score, i)
             | Some (_, bscore, _) =>
                 if Qle_bool score bscore then best else Some (c, score, i)
             end in
           if Qeq_bool score 100 then Ok best'
           else extractOne_calls scorer query rest (S i) best')
  end.

Definition extractOne_calling (scorer : function) (query : string)
           (choices : list string) : result (option hit) :=
  extractOne_calls scorer query choices 0 None.

End Process.

(** A model of the scorers of rapidfuzz 3 with their default arguments (no
    processor, no score cutoff), after the library's documentation. Scores
    are exact rationals where the library rounds to a double. *)
Module RapidFuzz.
Import PyStr.

(** One row of the longest-common-subsequence table: [prev] is the row
    above, [diag] and [left] the cells before the current one. *)
Fixpoint lcs_row (x : ascii) (b : chars) (prev : list nat)
         (diag left : nat) : list nat :=
  match b, prev with
  | y :: b', up :: prev' =>
      let v := if Ascii.eqb x y then S diag else Nat.max up left in
      v :: lcs_row x b' prev' up v
  | _, _ => []
  end.

Definition lcs_length (a b : chars) : nat :=
  last (fold_left (fun row x => lcs_row x b row 0 0)%nat a
                  (repeat 0%nat (List.length b))) 0%nat.

(** [100 - 100 * dist / lensum], and 100 when both strings are empty. *)
Definition norm_distance (dist lensum : nat) : Q :=
  match lensum with
  | O => 100
  | S _ => 100 - Qmake (Z.of_nat (100 * dist)) (Pos.of_nat lensum)
  end.

(** The insertion/deletion distance. *)
Definition indel_distance (a b : chars) : nat :=
  List.length a + List.length b - 2 * lcs_length a b.

(** [fuzz.ratio]. *)
Definition ratio (a b : chars) : Q :=
  norm_distance (indel_distance a b) (List.length a + List.length b).

(** [s.split()]: the maximal runs of non-space characters. *)
Fixpoint split_go (s : chars) (cur : chars) : list chars :=
  match s with
  | [] => match cur with [] => [] | _ => [rev cur] end
  | c :: t =>
      if is_space c
      then match cur with
           | [] => split_go t []
           | _ => rev cur :: split_go t []
           end
      else split_go t (c :: cur)
  end.

Definition split (s : chars) : list chars := split_go s [].

(** Lexicographic order on code points. *)
Fixpoint chars_leb (a b : chars) : bool :=
  match a, b with
  | [], _ => true
  | _ :: _, [] => false
  | x :: a', y :: b' =>
      if N.ltb (code x) (code y) then true
      else if N.ltb (code y) (code x) then false
      else chars_leb a' b'
  end.

Fixpoint insert_sorted (t : chars) (l : list chars) : list chars :=
  match l with
  | [] => [t]
  | u :: l' => if chars_leb t u then t :: l else u :: insert_sorted t l'
  end.

(** [sorted(tokens)]. *)
Definition sorted (l : list chars) : list chars :=
  fold_right insert_sorted [] l.

(** [" ".join(tokens)]. *)
Fixpoint join (l : list chars) : chars :=
  match l with
  | [] => []
  | [t] => t
  | t :: l' => t ++ space :: join l'
  end.

Definition chars_eqb (a b : chars) : bool :=
  (chars_leb a b && chars_leb b a)%bool.

Definition mem (t : chars) (l : list chars) : bool :=
  existsb (chars_eqb t) l.

(** [sorted(set(tokens))]. *)
Fixpoint dedup (l : list chars) : list chars :=
  match l with
  | [] => []
  | t :: l' => if mem t l' then dedup l' else t :: dedup l'
  end.

Definition token_set (s : chars) : list chars := sorted (dedup (split s)).

(** [max(x, y)] on scores: the first argument unless the second is
    strictly larger. *)
Definition Qmax (x y : Q) : Q := if Qle_bool y x then x else y.

(** [fuzz.token_sort_ratio]. *)
Definition token_sort_ratio (a b : chars) : Q :=
  ratio (join (sorted (split a))) (join (sorted (split b))).

(** [fuzz.token_set_ratio]. *)
Definition token_set_ratio (a b : chars) : Q :=
  let ta := token_set a in
  let tb := token_set b in
  match ta, tb with
  | [], _ | _, [] => 0
  | _, _ =>
      let sect := filter (fun t => mem t tb) ta in
      let diff_ab := filter (fun t => negb (mem t tb)) ta in
      let diff_ba := filter (fun t => negb (mem t ta)) tb in
      match sect, diff_ab, diff_ba with
      | _ :: _, [], _ | _ :: _, _, [] => 100
      | _, _, _ =>
          let ab := join diff_ab in
          let ba := join diff_ba in
          let sect_len := List.length (join sect) in
          let sep := match sect_len with O => 0%nat | S _ => 1%nat end in
          let sect_ab_len := (sect_len + sep + List.length ab)%nat in
          let sect_ba_len := (sect_len + sep + List.length ba)%nat in
          let result :=
            norm_distance (indel_distance ab ba)
                          (sect_ab_len + sect_ba_len) in
          match sect_len with
          | O => result
          | S _ =>
              Qmax result
                (Qmax (norm_distance (sep + List.length ab)
                                     (sect_len + sect_ab_len))
                      (norm_distance (sep + List.length ba)
                                     (sect_len + sect_ba_len)))
          end
      end
  end.

(** [fuzz.token_ratio]. *)
Definition token_ratio (a b : chars) : Q :=
  Qmax (token_sort_ratio a b) (token_set_ratio a b).

Definition Qmaximum (l : list Q) : Q := fold_left Qmax l 0.

(** The alignments of a shorter string of length [n] inside [long]: the
    proper prefixes shorter than [n], the windows of length [n], and the
    suffixes shorter than [n]. *)
Definition windows (n : nat) (long : chars) : list chars :=
  let m := List.length long in
  map (fun i => firstn i long) (seq 1 (n - 1))
  ++ map (fun i => firstn n (skipn i long)) (seq 0 (m - n))
  ++ map (fun i => skipn i long) (seq (m - n) n).

Definition partial_ratio_impl (short long : chars) : Q :=
  Qmaximum (map (ratio short) (windows (List.length short) long)).

(** [fuzz.partial_ratio]. *)
Definition partial_ratio (a b : chars) : Q :=
  match a, b with
  | [], [] => 100
  | [], _ | _, [] => 0
  | _, _ =>
      let la := List.length a in
      let lb := List.length b in
      if Nat.ltb la lb then partial_ratio_impl a b
      else if Nat.ltb lb la then partial_ratio_impl b a
      else Qmax (partial_ratio_impl a b) (partial_ratio_impl b a)
  end.

(** [fuzz.partial_token_ratio]. *)
Definition partial_token_ratio (a b : chars) : Q :=
  let sa := split a in
  let sb := split b in
  let ta := token_set a in
  let tb := token_set b in
  if existsb (fun t => mem t tb) ta then 100
  else
    Qmax (partial_ratio (join (sorted sa)) (join (sorted sb)))
         (partial_ratio (join ta) (join tb)).

(** [fuzz.WRatio]. *)
Definition WRatio (a b : chars) : Q :=
  match a, b with
  | [], _ | _, [] => 0
  | _, _ =>
      let la := List.length a in
      let lb := List.length b in
      let long := Nat.max la lb in
      let short := Nat.min la lb in
      let end_ratio := ratio a b in
      if Nat.ltb (2 * long) (3 * short)
      then Qmax end_ratio (token_ratio a b * (95 # 100))
      else
        let partial_scale : Q :=
          if Nat.ltb long (8 * short) then 9 # 10 else 6 # 10 in
        Qmax (Qmax end_ratio (partial_ratio a b * partial_scale))
             (partial_token_ratio a b * (95 # 100) * partial_scale)
  end.

Definition lib : FuzzLib :=
  {| fuzz_token_sort_ratio :=
       fun a b => token_sort_ratio (of_string a) (of_string b);
     fuzz_WRatio := fun a b => WRatio (of_string a) (of_string b) |}.

End RapidFuzz.

(* ===================================================================== *)
(** ** column_matcher.py *)
(* ===================================================================== *)

Module ColumnMatcher.
Import Py Process.

Section Scorers.
Variable lib : FuzzLib.

(** [token_ratio(a, b)] returns [fuzz.token_sort_ratio(a, b)]. *)
Definition token_ratio (a b : string) : Q := fuzz_token_sort_ratio lib a b.

(** [WRatio(a, b)] returns [fuzz.WRatio(a, b)]. *)
Definition WRatio (a b : string) : Q := fuzz_WRatio lib a b.

(** The default of the [scorer] parameter of [best_match_score]. *)
Definition default_scorer : Scorer := fuzz_WRatio lib.

(** The function object [token_ratio]: [def token_ratio(a: str, b: str)]
    has two positional parameters and no keyword [score_cutoff]. *)
Definition token_ratio_function : function :=
  {| fn_name := "token_ratio";
     accepts_score_cutoff := false;
     fn_body := token_ratio |}.
End Scorers.

(** [best_match_score(query, choices, scorer)]: the result of
    [extractOne] is unpacked into three names, which raises [TypeError]
    when it is [None]. *)
Definition best_match_score (query : string) (choices : list string)
           (scorer : Scorer) : result (string * Q) :=
  match extractOne scorer query choices with
  | Some (m, score, _) => Ok (m, score)
  | None => Raise (TypeError "cannot unpack non-iterable NoneType object")
  end.

(** The call [best_match_score(query, choices, scorer=f)] for a function
    [f] of the repository, which [extractOne] has to call. *)
Definition call_best_match_score (query : string) (choices : list string)
           (scorer : function) : result (string * Q) :=
  bind (extractOne_calling scorer query choices)
    (fun r =>
       match r with
       | Some (m, score, _) => Ok (m, score)
       | None => Raise (TypeError "cannot unpack non-iterable NoneType object")
       end).

End ColumnMatcher.

(* ===================================================================== *)
(** ** schema_config.py *)
(* ===================================================================== *)

Module SchemaConfig.
Open Scope string_scope.

(** One entry [{"name": ..., "aliases": [...]}]. *)
Record entry : Type := { name : string; aliases : list string }.

Definition EXPECTED_COLUMNS : list entry :=
  [ {| name := "SoldDate";
       aliases := ["sale_date"; "date_sold"; "sold_on"; "dateofsale"] |};
    {| name := "CustomerName";
       aliases := ["customer"; "client_name"; "buyer_name"; "purchaser"] |};
    {| name := "SellingPrice";
       aliases := ["price"; "amount_sold"; "sale_price"; "final_price"] |} ].

Definition LEAD_SOURCES : list entry :=
  [ {| name := "NeoIdentity";
       aliases := ["Neo Ident."; "NeoIdent."; "Neo Ident"; "NeoIdentity";
                   "Neo Identified"] |};
    {| name := "AutoTrader";
       aliases := ["Auto Trader"; "Autotrader"; "AutoTrader.com"; "AT"] |};
    {| name := "CarGurus";
       aliases := ["Car Gurus"; "Cargurus.com"; "CarGurus"] |};
    {| name := "Facebook";
       aliases := ["FB"; "Facebook Marketplace"; "Facebook"] |};
    {| name := "WalkIn";
       aliases := ["Walk In"; "Walk-In"; "WalkIn"] |} ].

(** The loop both the loader and the value normalizer run over their
    vocabulary:
      for col in CONFIG:
          for alias in col["aliases"]:
              alias_to_canonical[alias] = col["name"]
          alias_to_canonical[col["name"]] = col["name"]            *)
Definition add_entry (d : Py.dict string) (col : entry) : Py.dict string :=
  Py.dict_set (name col) (name col)
    (fold_left (fun d alias => Py.dict_set alias (name col) d)
               (aliases col) d).

Definition build_alias_to_canonical (cfg : list entry) : Py.dict string :=
  fold_left add_entry cfg [].

End SchemaConfig.

(* ===================================================================== *)
(** ** The pandas collaborator: columns and tables *)
(* ===================================================================== *)

Module Pandas.
Import Py.

Inductive dtype : Type :=
| int64            (* numpy integer *)
| int64_pyarrow    (* "int64[pyarrow]", may hold missing values *)
| Int64            (* pandas nullable integer *)
| float64
| object
| bool_
| datetime64.

(** [pd.api.types.is_integer_dtype]. *)
Definition is_integer_dtype (d : dtype) : bool :=
  match d with
  | int64 | int64_pyarrow | Int64 => true
  | _ => false
  end.

(** [pd.api.types.is_object_dtype]. *)
Definition is_object_dtype (d : dtype) : bool :=
  match d with
  | object => true
  | _ => false
  end.

Record series : Type := { s_dtype : dtype; s_values : list value }.

(** A table: its number of rows and its labelled columns in order. *)
Record frame : Type := { nrows : nat; columns : list (string * series) }.

Definition labels (df : frame) : list string := map fst (columns df).

(** [len(df.columns)]. *)
Definition ncols (df : frame) : nat := List.length (columns df).

(** [df.empty]: some axis has length zero. *)
Definition empty (df : frame) : bool :=
  (Nat.eqb (nrows df) 0 || Nat.eqb (ncols df) 0)%bool.

(** [s.isnull().any()]. *)
Definition has_null (s : series) : bool := existsb isnull (s_values s).

Definition count_label (col : string) (df : frame) : nat :=
  List.length (filter (String.eqb col) (labels df)).

Fixpoint assoc (col : string) (l : list (string * series)) : option series :=
  match l with
  | [] => None
  | (k, s) :: l' => if String.eqb k col then Some s else assoc col l'
  end.

(** [df[col]] where a column is expected: a label carried by several
    columns selects a table, on which the column attributes the callers
    go on to read do not exist. *)
Definition getitem (df : frame) (col : string) : result series :=
  match assoc col (columns df) with
  | None => Raise (KeyError col)
  | Some s =>
      if Nat.ltb 1 (count_label col df)
      then Raise (AttributeError "'DataFrame' object has no such attribute")
      else Ok s
  end.

Fixpoint set_assoc (col : string) (s : series) (l : list (string * series))
  : list (string * series) :=
  match l with
  | [] => [(col, s)]
  | (k, s') :: l' =>
      if String.eqb k col then (k, s) :: l'
      else (k, s') :: set_assoc col s l'
  end.

(** [df[col] = s] for a label carried by at most one column. *)
Definition setitem (df : frame) (col : string) (s : series) : frame :=
  {| nrows := nrows df; columns := set_assoc col s (columns df) |}.

(** [df.columns = names]. *)
Definition set_labels (df : frame) (names : list string) : frame :=
  {| nrows := nrows df;
     columns := map (fun p => (fst p, snd (snd p)))
                    (combine names (columns df)) |}.

(** [s.str.strip()] on an object column: strings are stripped of white
    space, every other element becomes NaN. *)
Definition str_strip (s : series) : series :=
  {| s_dtype := object;
     s_values :=
       map (fun v =>
              match v with
              | VStr x =>
                  VStr (PyStr.to_string
                          (PyStr.strip PyStr.is_space (PyStr.of_string x)))
              | _ => VNaN
              end) (s_values s) |}.

(** The integer types that hold their missing values under a mask or in
    an Arrow array, and take no value of another type. *)
Definition is_nullable_integer (d : dtype) : bool :=
  match d with
  | int64_pyarrow | Int64 => true
  | _ => false
  end.

(** The column with [fill] in place of every missing value: a column
    that held one holds objects. *)
Definition filled (fill : string) (s : series) : series :=
  {| s_dtype := if has_null s then object else s_dtype s;
     s_values := map (fun v => if isnull v then VStr fill else v)
                     (s_values s) |}.

(** [s.fillna('')]: a nullable integer column that holds a missing value
    refuses the string. *)
Definition series_fillna (fill : string) (s : series) : result series :=
  if (is_nullable_integer (s_dtype s) && has_null s)%bool
  then Raise (TypeError ("Invalid value '" ++ fill ++ "' for dtype "
                         ++ match s_dtype s with
                            | int64_pyarrow => "int64[pyarrow]"
                            | _ => "Int64"
                            end)%string)
  else Ok (filled fill s).

Fixpoint fillna_columns (fill : string) (l : list (string * series))
  : result (list (string * series)) :=
  match l with
  | [] => Ok []
  | (k, s) :: l' =>
      bind (series_fillna fill s)
        (fun s' =>
           bind (fillna_columns fill l') (fun r => Ok ((k, s') :: r)))
  end.

(** [df.fillna('')], column by column. *)
Definition fillna (fill : string) (df : frame) : result frame :=
  bind (fillna_columns fill (columns df))
    (fun cols => Ok {| nrows := nrows df; columns := cols |}).

(** [df.select_dtypes(include=['object']).columns]. *)
Definition object_labels (df : frame) : list string :=
  map fst (filter (fun p => is_object_dtype (s_dtype (snd p))) (columns df)).

(** [df.rename(columns=mapping)]. *)
Definition rename (mapping : dict string) (df : frame) : frame :=
  {| nrows := nrows df;
     columns :=
       map (fun p => (match dict_get (fst p) mapping with
                      | Some k => k
                      | None => fst p
                      end, snd p)) (columns df) |}.

(** The objects of the interpreter: tables live in cells named by
    references; a call that receives a table receives its reference. *)
Definition ref : Type := nat.

Record store : Type := { next_ref : ref; cell : ref -> frame }.

Definition allocated (r : ref) (st : store) : Prop := (r < next_ref st)%nat.

Definition alloc (df : frame) (st : store) : ref * store :=
  (next_ref st,
   {| next_ref := S (next_ref st);
      cell := fun r => if Nat.eqb r (next_ref st) then df else cell st r |}).

Definition update (r : ref) (df : frame) (st : store) : store :=
  {| next_ref := next_ref st;
     cell := fun r' => if Nat.eqb r' r then df else cell st r' |}.

(** Computations over the store that may raise. *)
Definition M (A : Type) : Type := store -> result A * store.

Definition ret {A} (a : A) : M A := fun st => (Ok a, st).
Definition mbind {A B} (m : M A) (k : A -> M B) : M B :=
  fun st =>
    match m st with
    | (Ok a, st') => k a st'
    | (Raise e, st') => (Raise e, st')
    end.
Definition lift {A} (r : result A) : M A := fun st => (r, st).
Definition read (r : ref) : M frame := fun st => (Ok (cell st r), st).
Definition write (r : ref) (df : frame) : M unit :=
  fun st => (Ok tt, update r df st).
Definition new (df : frame) : M ref :=
  fun st => let '(r, st') := alloc df st in (Ok r, st').

(** [df.copy()]: a new table with the same content. *)
Definition copy (r : ref) : M ref :=
  mbind (read r) new.

End Pandas.

Declare Scope store_scope.
Delimit Scope store_scope with store.
Notation "x <-- c1 ;; c2" := (Pandas.mbind c1 (fun x => c2))
  (at level 61, c1 at next level, right associativity) : store_scope.
Notation "c1 ;;; c2" := (Pandas.mbind c1 (fun _ => c2))
  (at level 61, right associativity) : store_scope.

(* ===================================================================== *)
(** ** data_cleaner.py *)
(* ===================================================================== *)

Module DataCleaner.
Import Py Pandas ColumnMatcher SchemaConfig.
Open Scope string_scope.
Open Scope store_scope.

Fixpoint for_each {A} (body : A -> M unit) (l : list A) : M unit :=
  match l with
  | [] => ret tt
  | x :: l' => body x ;;; for_each body l'
  end.

(** The body of the loop of [clean_data] over the object columns:
      cleaned_df[col] = cleaned_df[col].str.strip()
                        if cleaned_df[col].dtype == 'object'
                        else cleaned_df[col]                         *)
Definition strip_column (cleaned : ref) (col : string) : M unit :=
  f <-- read cleaned ;;
  s <-- lift (getitem f col) ;;
  write cleaned
    (setitem f col (if is_object_dtype (s_dtype s) then str_strip s else s)).

(** [clean_data(df)]. *)
Definition clean_data (df : ref) : M ref :=
  cleaned_df <-- copy df ;;
  f <-- read cleaned_df ;;
  write cleaned_df (set_labels f (map SnakeCase.to_snake_case (labels f))) ;;;
  f <-- read cleaned_df ;;
  for_each (strip_column cleaned_df) (object_labels f) ;;;
  f <-- read cleaned_df ;;
  filled <-- lift (fillna "" f) ;;
  new filled.

Definition possible_names : list string :=
  ["LeadSource"; "lead_source"; "lead source"; "Lead Source"].

(** [col.lower().replace(" ", "_")]. *)
Definition lower_underscored (col : string) : string :=
  PyStr.to_string
    (PyStr.replace_char PyStr.space PyStr.underscore
       (PyStr.lower (PyStr.of_string col))).

Definition is_lead_source_name (col : string) : bool :=
  existsb (String.eqb (lower_underscored col))
          (map lower_underscored possible_names).

(** The search loop: the first column whose name is recognised. *)
Definition find_lead_source_col (cols : list string) : option string :=
  find is_lead_source_name cols.

(** An entry of [normalization_meta]. *)
Record norm_record : Type := {
  original_value : string;
  normalized_to : string;
  score : Q
}.

(** What [normalize_lead_sources] hands back: the table alone, or the
    table with the records. *)
Inductive returned : Type :=
| JustFrame (df : ref)
| FrameAndMeta (df : ref) (normalization_meta : list norm_record).

Definition lookup (d : dict string) (k : string) : result string :=
  match dict_get k d with
  | Some v => Ok v
  | None => Raise (KeyError k)
  end.

Section Normalizer.
Variable lib : FuzzLib.
Open Scope py_scope.

(** The closure [normalize_value(val)]; the list it appends to is
    threaded through. Only a string passes the first test. *)
Definition normalize_value (alias_to_canonical : dict string)
           (candidates : list string) (val : value)
           (normalization_meta : list norm_record)
  : result (value * list norm_record) :=
  if (isnull val || negb (is_str val))%bool
  then Ok (val, normalization_meta)
  else
    match val with
    | VStr s =>
        '(m, sc) <- call_best_match_score s candidates
                                          (token_ratio_function lib) ;;
        if Qle_bool 85 sc then
          canonical <- lookup alias_to_canonical m ;;
          Ok (VStr canonical,
              (normalization_meta
                 ++ [{| original_value := s; normalized_to := canonical;
                        score := sc |}])%list)
        else
          Ok (val,
              (normalization_meta
                 ++ [{| original_value := s; normalized_to := s;
                        score := sc |}])%list)
    | _ => Ok (val, normalization_meta)
    end.

(** [column.apply(normalize_value)]: the values in order. *)
Fixpoint apply_normalize_value (alias_to_canonical : dict string)
         (candidates : list string) (vals : list value)
         (normalization_meta : list norm_record)
  : result (list value * list norm_record) :=
  match vals with
  | [] => Ok ([], normalization_meta)
  | v :: rest =>
      '(v', meta1) <- normalize_value alias_to_canonical candidates v
                                      normalization_meta ;;
      '(rest', meta2) <- apply_normalize_value alias_to_canonical
                                               candidates rest meta1 ;;
      Ok (v' :: rest', meta2)
  end.

(** The normalization of one vocabulary over one column. *)
Definition normalize_values (cfg : list entry) (vals : list value)
  : result (list value * list norm_record) :=
  let alias_to_canonical := build_alias_to_canonical cfg in
  let candidates := dict_keys alias_to_canonical in
  apply_normalize_value alias_to_canonical candidates vals [].

(** [df[lead_source_col].apply(normalize_value)]. When the label is
    carried by several columns the selection is a table and [apply]
    hands whole columns to [normalize_value], whose test on a column
    raises; a table without rows is left as it is. *)
Definition normalized_column (f : frame) (col : string)
  : result (option series * list norm_record) :=
  if Nat.ltb 1 (count_label col f) then
    if Nat.eqb (nrows f) 0 then Ok (None, [])
    else Raise (ValueError "The truth value of a Series is ambiguous")
  else
    match assoc col (columns f) with
    | None => Raise (KeyError col)
    | Some s =>
        '(vals, meta) <- normalize_values LEAD_SOURCES (s_values s) ;;
        Ok (Some {| s_dtype := s_dtype s; s_values := vals |}, meta)
    end.

Open Scope store_scope.

(** [normalize_lead_sources(df)]. *)
Definition normalize_lead_sources (df : ref) : M returned :=
  f <-- read df ;;
  match find_lead_source_col (labels f) with
  | None | Some "" => ret (JustFrame df)
  | Some lead_source_col =>
      r <-- lift (normalized_column f lead_source_col) ;;
      let '(col', normalization_meta) := r in
      match col' with
      | Some s => write df (setitem f lead_source_col s)
      | None => ret tt
      end ;;;
      ret (FrameAndMeta df normalization_meta)
  end.

End Normalizer.

End DataCleaner.

(* ===================================================================== *)
(** ** data_loader.py *)
(* ===================================================================== *)

Module DataLoader.
Import Py Pandas ColumnMatcher SchemaConfig.
Open Scope string_scope.
Open Scope py_scope.

(** An entry of [mapping_meta]. *)
Record column_mapping : Type := {
  original_column : string;
  mapped_to : string;
  score : Q
}.

Definition lookup (d : dict string) (k : string) : result string :=
  match dict_get k d with
  | Some v => Ok v
  | None => Raise (KeyError k)
  end.

(** [sample.count(d)] for a one-character [d]. *)
Definition count_char (d : ascii) (sample : string) : nat :=
  List.length (filter (Ascii.eqb d) (list_ascii_of_string sample)).

Definition delimiters : list ascii :=
  [","%char; ";"%char; "009"%char; "|"%char].

(** [max(counts, key=counts.get)]: the first delimiter with the largest
    count. *)
Definition sniff_delimiter (sample : string) : ascii :=
  fold_left
    (fun best d =>
       if Nat.ltb (count_char best sample) (count_char d sample)
       then d else best)
    delimiters ","%char.

(** The collaborators of the loader: the file system, [pd.read_csv], the
    column-semantics analyzer and the casts of pandas. *)
Record Env : Type := {
  path_exists : string -> bool;
  read_head : string -> result string;
  read_csv_sample : string -> ascii -> result frame;
  astype_str : value -> string;
  analyze_column_semantics : string -> list string -> result string;
  read_csv_pyarrow :
    string -> ascii -> dict string -> list string -> result frame;
  read_csv_plain :
    string -> ascii -> dict string -> list string -> result frame;
  astype_Int64 : series -> result series;
  astype_float64 : series -> result series
}.

Section Loader.
Variable lib : FuzzLib.
Variable env : Env.

(** The body of the loop over [df_sample.columns]. *)
Definition map_column (alias_to_canonical : dict string)
           (user_col : string)
           (acc : dict string * list column_mapping)
  : result (dict string * list column_mapping) :=
  let '(mapping, mapping_meta) := acc in
  let candidates := dict_keys alias_to_canonical in
  '(m, sc) <- call_best_match_score user_col candidates
                                    (token_ratio_function lib) ;;
  if Qle_bool 85 sc then
    canonical <- lookup alias_to_canonical m ;;
    Ok (dict_set user_col canonical mapping,
        (mapping_meta
           ++ [{| original_column := user_col; mapped_to := canonical;
                  score := sc |}])%list)
  else
    Ok (dict_set user_col user_col mapping,
        (mapping_meta
           ++ [{| original_column := user_col; mapped_to := user_col;
                  score := sc |}])%list).

Fixpoint map_columns (alias_to_canonical : dict string)
         (cols : list string)
         (acc : dict string * list column_mapping)
  : result (dict string * list column_mapping) :=
  match cols with
  | [] => Ok acc
  | user_col :: rest =>
      acc' <- map_column alias_to_canonical user_col acc ;;
      map_columns alias_to_canonical rest acc'
  end.

(** The fuzzy column mapping block of [load_csv_file] over a
    vocabulary: [(mapping, mapping_meta)]. *)
Definition fuzzy_column_mapping (cfg : list entry) (cols : list string)
  : result (dict string * list column_mapping) :=
  map_columns (build_alias_to_canonical cfg) cols ([], []).

(** [df_sample[col].dropna().astype(str).tolist()[:5]]. *)
Definition sample_values (s : series) : list string :=
  firstn 5 (map (astype_str env)
                (filter (fun v => negb (isnull v)) (s_values s))).

(** The loop that asks the analyzer for the type of every column:
    [(column_types, parse_dates)]. *)
Fixpoint column_types_of (df_sample : frame) (cols : list string)
         (acc : dict string * list string)
  : result (dict string * list string) :=
  match cols with
  | [] => Ok acc
  | col :: rest =>
      s <- getitem df_sample col ;;
      data_type <- analyze_column_semantics env col (sample_values s) ;;
      let '(column_types, parse_dates) := acc in
      column_types_of df_sample rest
        (if String.eqb data_type "datetime64"
         then (column_types, (parse_dates ++ [col])%list)
         else (dict_set col data_type column_types, parse_dates))
  end.

(** The body of the loop that promotes integer columns holding
    missing values. *)
Definition promote_column (df : frame) (col : string) : result frame :=
  s <- getitem df col ;;
  if (is_integer_dtype (s_dtype s) && has_null s)%bool then
    s' <- try_except (astype_Int64 env s)
                     (fun _ => astype_float64 env s) ;;
    Ok (setitem df col s')
  else Ok df.

Fixpoint promote_columns (df : frame) (cols : list string)
  : result frame :=
  match cols with
  | [] => Ok df
  | col :: rest =>
      df' <- promote_column df col ;;
      promote_columns df' rest
  end.

(** The basic validation at the end of the loader. *)
Definition basic_validation (df : frame) : result unit :=
  if empty df then Raise (ValueError "The CSV file is empty")
  else if Nat.ltb (ncols df) 2
  then Raise (ValueError "The CSV file must have at least two columns")
  else Ok tt.

(** The body of the [try] block of [load_csv_file]. *)
Definition load_body (file_path : string)
  : result (frame * dict string * list column_mapping) :=
  sample <- read_head env file_path ;;
  let delimiter := sniff_delimiter sample in
  df_sample <- read_csv_sample env file_path delimiter ;;
  '(mapping, mapping_meta) <-
      fuzzy_column_mapping EXPECTED_COLUMNS (labels df_sample) ;;
  let df_sample := rename mapping df_sample in
  '(column_types, parse_dates) <-
      column_types_of df_sample (labels df_sample) ([], []) ;;
  df <- try_except
          (read_csv_pyarrow env file_path delimiter column_types
                            parse_dates)
          (fun _ => read_csv_plain env file_path delimiter column_types
                                   parse_dates) ;;
  df <- promote_columns df (labels df) ;;
  _ <- basic_validation df ;;
  Ok (df, mapping, mapping_meta).

(** [load_csv_file(file_path)]. *)
Definition load_csv_file (file_path : string)
  : result (frame * dict string * list column_mapping) :=
  if negb (path_exists env file_path)
  then Raise (FileNotFoundError ("File not found: " ++ file_path))
  else
    try_except (load_body file_path)
      (fun e =>
         match e with
         | ParserError msg =>
             Raise (ValueError ("Invalid CSV format: " ++ msg))
         | _ => Raise e
         end).

End Loader.

End DataLoader.

(* ===================================================================== *)
(** ** Vocabulary of the statements *)
(* ===================================================================== *)

Module Shape.
Import PyStr.

(** The characters of a normalized header. *)
Definition snake_char (c : ascii) : bool :=
  (is_lower c || is_digit c || is_us c)%bool.

(** The list is empty or starts outside the class [p]. *)
Definition head_outside (p : ascii -> bool) (s : chars) : Prop :=
  match s with
  | [] => True
  | c :: _ => p c = false
  end.

(** No two underscores in a row. *)
Fixpoint single_us (s : chars) : Prop :=
  match s with
  | [] => True
  | c :: t => (is_us c = true -> head_outside is_us t) /\ single_us t
  end.

Definition no_upper (s : chars) : Prop :=
  Forall (fun c => is_upper c = false) s.

Definition all_snake (s : chars) : Prop :=
  Forall (fun c => snake_char c = true) s.

Definition alnum_or_us (c : ascii) : Prop :=
  (is_alnum c || is_us c)%bool = true.

End Shape.

(** Vocabulary of the statements about the registry and the matching. *)
Module Registry.
Import Py Process ColumnMatcher SchemaConfig.

(** The entry lists the string among its aliases or carries it as its
    name. *)
Definition claims (e : entry) (a : string) : Prop :=
  a = name e \/ In a (aliases e).

(** Two entries with different names claim the string. *)
Definition ambiguous_alias (cfg : list entry) (a : string) : Prop :=
  exists e1 e2,
    In e1 cfg /\ In e2 cfg /\ name e1 <> name e2
    /\ claims e1 a /\ claims e2 a.

(** The score of a hit. *)
Definition hit_score (h : hit) : Q := snd (fst h).

(** A hit names one of the choices together with its own score. *)
Definition hit_of (scorer : Scorer) (query : string)
           (choices : list string) (h : hit) : Prop :=
  let '(c, sc, _) := h in In c choices /\ sc = scorer query c.

End Registry.

(** Concrete inputs used by the examples below. *)
Module Examples.
Import Py Pandas SchemaConfig.
Open Scope string_scope.

Definition sold_date : entry :=
  {| name := "SoldDate"; aliases := ["date"; "sold_on"] |}.
Definition listed_date : entry :=
  {| name := "ListedDate"; aliases := ["date"; "listed_on"] |}.

(** A vocabulary in which two canonical names claim the alias "date". *)
Definition ambiguous_config : list entry := [sold_date; listed_date].

End Examples.

(** Concrete tables and collaborators used by the examples below. *)
Module Fixtures.
Import Py Pandas SchemaConfig.
Open Scope string_scope.

Definition price_column : series :=
  {| s_dtype := int64; s_values := [VInt 10; VInt 12] |}.

Definition qty_column : series :=
  {| s_dtype := int64_pyarrow; s_values := [VInt 1; VNA] |}.

(** A table with the single column "price" and two rows. *)
Definition one_column : frame :=
  {| nrows := 2; columns := [("price", price_column)] |}.

(** A table with the columns "price" and "qty". *)
Definition two_columns : frame :=
  {| nrows := 2;
     columns := [("price", price_column); ("qty", qty_column)] |}.

(** Casts as pandas performs them on integer columns. *)
Definition to_Int64 (s : series) : result series :=
  Ok {| s_dtype := Int64;
        s_values := map (fun v => if isnull v then VNA else v)
                        (s_values s) |}.

Definition to_float64 (s : series) : result series :=
  Ok {| s_dtype := float64;
        s_values := map (fun v => match v with
                                  | VInt z => VFloat (inject_Z z)
                                  | VFloat q => VFloat q
                                  | _ => VNaN
                                  end) (s_values s) |}.



(** Collaborators for a file that exists and holds the table [df]. *)
Definition file_env (df : frame)
           (cast_Int64 : series -> result series) : DataLoader.Env :=
  {| DataLoader.path_exists := fun _ => true;
     DataLoader.read_head := fun _ => Ok "price,qty";
     DataLoader.read_csv_sample := fun _ _ => Ok df;
     DataLoader.astype_str := fun _ => "";
     DataLoader.analyze_column_semantics := fun _ _ => Ok "int64";
     DataLoader.read_csv_pyarrow := fun _ _ _ _ => Ok df;
     DataLoader.read_csv_plain := fun _ _ _ _ => Ok df;
     DataLoader.astype_Int64 := cast_Int64;
     DataLoader.astype_float64 := to_float64 |}.


Definition lead_column : series :=
  {| s_dtype := object;
     s_values := [VStr " Walk In "; VNone; VStr "Auto Trader"] |}.

(** A table with a lead-source column and a price column. *)
Definition leads : frame :=
  {| nrows := 3;
     columns :=
       [("Lead Source", lead_column);
        ("Sale Price",
         {| s_dtype := float64;
            s_values := [VFloat 1; VNaN; VFloat 3] |})] |}.

(** A table whose lead-source column holds no string. *)
Definition blank_leads : frame :=
  {| nrows := 2;
     columns :=
       [("Lead Source",
         {| s_dtype := object; s_values := [VNone; VNaN] |});
        ("Sale Price",
         {| s_dtype := float64; s_values := [VFloat 1; VFloat 3] |})] |}.

(** An interpreter state with one table, at reference 0. *)
Definition store_of (df : frame) : store :=
  {| next_ref := 1%nat; cell := fun _ => df |}.

End Fixtures.

(** Vocabulary of the statements about the interpreter state. *)
Module Frame.
Import Py Pandas.

(** From [st] to [st'] nothing was allocated, only the table at [c] may
    have changed, and it kept its labels. *)
Definition only_changes (c : ref) (st st' : store) : Prop :=
  next_ref st' = next_ref st
  /\ (forall x, x <> c -> cell st' x = cell st x)
  /\ labels (cell st' c) = labels (cell st c).

(** No column of the table holds a missing value. *)
Definition no_missing (df : frame) : Prop :=
  Forall (fun p => has_null (snd p) = false) (columns df).

End Frame.

(* ===================================================================== *)
(** ** data_loader.py : column types and format detection *)
(* ===================================================================== *)

Module ColumnTypes.
Import Py Pandas.
Open Scope string_scope.
Open Scope py_scope.

(** [pd.api.types.is_numeric_dtype]: the integer, floating and boolean
    types. *)
Definition is_numeric_dtype (d : dtype) : bool :=
  match d with
  | int64 | int64_pyarrow | Int64 | float64 | bool_ => true
  | _ => false
  end.

(** [pd.api.types.is_datetime64_dtype]. *)
Definition is_datetime64_dtype (d : dtype) : bool :=
  match d with
  | datetime64 => true
  | _ => false
  end.

(** [s.dropna()] on the values. *)
Definition dropna (vals : list value) : list value :=
  filter (fun v => negb (isnull v)) vals.

(** [x == int(x)] on a value of a numeric column: [int] refuses an
    infinity, and what is no number. *)
Definition is_whole (v : value) : result bool :=
  match v with
  | VInt _ | VBool _ => Ok true
  | VFloat q => Ok (Z.eqb (Qnum q mod Zpos (Qden q)) 0)
  | VInf _ => Raise (OverflowError "cannot convert float infinity to integer")
  | VNaN => Raise (ValueError "cannot convert float NaN to integer")
  | VStr _ => Raise (ValueError "invalid literal for int() with base 10")
  | VNone | VNA =>
      Raise (TypeError "int() argument must be a string or a real number")
  end.

(** [s.apply(lambda x: x == int(x))]: the values in order. *)
Fixpoint apply_is_whole (vals : list value) : result (list bool) :=
  match vals with
  | [] => Ok []
  | v :: rest =>
      w <- is_whole v ;;
      ws <- apply_is_whole rest ;;
      Ok (w :: ws)
  end.

Section Types.
(** Whether [pd.to_datetime] accepts the sample without raising. *)
Variable to_datetime_ok : list value -> bool.

(** The type [get_column_types] gives to one column. *)
Definition column_type (s : series) : result string :=
  if is_numeric_dtype (s_dtype s) then
    wholes <- apply_is_whole (dropna (s_values s)) ;;
    Ok (if forallb (fun w => w) wholes then "integer" else "float")
  else if is_datetime64_dtype (s_dtype s) then Ok "datetime"
  else if is_object_dtype (s_dtype s) then
    Ok (if to_datetime_ok (firstn 10 (dropna (s_values s)))
        then "date_string" else "string")
  else Ok "string".

Fixpoint column_types_loop (df : frame) (cols : list string)
         (column_types : dict string) : result (dict string) :=
  match cols with
  | [] => Ok column_types
  | column :: rest =>
      s <- getitem df column ;;
      t <- column_type s ;;
      column_types_loop df rest (dict_set column t column_types)
  end.

(** [get_column_types(df)]. *)
Definition get_column_types (df : frame) : result (dict string) :=
  column_types_loop df (labels df) [].

End Types.

End ColumnTypes.

Module FormatDetection.
Import Py Pandas.
Open Scope string_scope.

Definition simple_indicators : list string :=
  ["lead_source"; "listing_price"; "sold_price"; "profit"; "sales_rep_name"].

Definition detailed_indicators : list string :=
  ["globalcustomerid"; "autoleadid"; "soldstatus"; "solddate"; "leadsource"].

(** [s.lower()]. *)
Definition lower_string (s : string) : string :=
  PyStr.to_string (PyStr.lower (PyStr.of_string s)).

(** Membership in [set(df.columns.str.lower())]. *)
Definition in_columns (cols : list string) (name : string) : bool :=
  existsb (String.eqb name) (map lower_string cols).

(** [len(indicators.intersection(columns)) / len(indicators)]. *)
Definition match_ratio (indicators cols : list string) : Q :=
  Qmake (Z.of_nat (List.length (filter (in_columns cols) indicators)))
        (Pos.of_nat (List.length indicators)).

(** [x > 0.6]. *)
Definition above_threshold (x : Q) : bool := negb (Qle_bool x (6 # 10)).

(** [detect_dealership_data_format(df)] on the column names of [df]. *)
Definition detect_dealership_data_format (cols : list string) : string :=
  if above_threshold (match_ratio simple_indicators cols) then "simple"
  else if above_threshold (match_ratio detailed_indicators cols)
  then "detailed"
  else "unknown".

End FormatDetection.

(* ===================================================================== *)
(** ** routes.py : the handlers that call the loader *)
(* ===================================================================== *)

Module Routes.
Import Py Pandas.
Open Scope string_scope.
Open Scope py_scope.

(** The objects the handlers pass around: a table, the dictionary
    [mapping], the list [mapping_meta] and its records, a string, a
    tuple. *)
#[warnings="-register-all"]
Inductive obj : Type :=
| OFrame (df : frame)
| OMapping (mapping : dict string)
| OMeta (mapping_meta : list DataLoader.column_mapping)
| ORecord (r : DataLoader.column_mapping)
| OStr (s : string)
| OTuple (items : list obj).

(** [type(o).__name__]. *)
Definition type_name (o : obj) : string :=
  match o with
  | OFrame _ => "DataFrame"
  | OMapping _ | ORecord _ => "dict"
  | OMeta _ => "list"
  | OStr _ => "str"
  | OTuple _ => "tuple"
  end.

(** [list(o)]: the items of a tuple or a list, the keys of a dictionary,
    the labels of a table, the characters of a string. *)
Definition iterate (o : obj) : list obj :=
  match o with
  | OTuple items => items
  | OMeta mapping_meta => map ORecord mapping_meta
  | OMapping mapping => map OStr (dict_keys mapping)
  | ORecord _ => [OStr "original_column"; OStr "mapped_to"; OStr "score"]
  | OFrame df => map OStr (labels df)
  | OStr s =>
      map (fun c => OStr (String c EmptyString)) (list_ascii_of_string s)
  end.

(** What a handler ends with: a response, an [HTTPException], or another
    exception that leaves it. *)
Inductive outcome (R : Type) : Type :=
| Returned (r : R)
| HTTPException (status_code : nat) (detail : string)
| Uncaught (e : exn).
Arguments Returned {R} r.
Arguments HTTPException {R} status_code detail.
Arguments Uncaught {R} e.

(** [str(e)]. *)
Definition str_of_exn (e : exn) : string :=
  match e with
  | FileNotFoundError msg | ValueError msg | TypeError msg
  | AttributeError msg | OverflowError msg | ParserError msg
  | OtherError msg => msg
  | KeyError key => "'" ++ key ++ "'"
  end.

(** [s.endswith(suffix)]. *)
Definition endswith (s suffix : string) : bool :=
  let n := String.length s in
  let m := String.length suffix in
  (Nat.leb m n && String.eqb (String.substring (n - m) m s) suffix)%bool.

(** [a, b = t]. *)
Definition unpack2 (t : obj) : result (obj * obj) :=
  match iterate t with
  | [a; b] => Ok (a, b)
  | [] => Raise (ValueError "not enough values to unpack (expected 2, got 0)")
  | [_] =>
      Raise (ValueError "not enough values to unpack (expected 2, got 1)")
  | _ :: _ :: _ :: _ =>
      Raise (ValueError "too many values to unpack (expected 2)")
  end.

(** [o.to_string()]: a method of tables only. *)
Definition to_string (render : frame -> string) (o : obj) : result string :=
  match o with
  | OFrame df => Ok (render df)
  | _ =>
      Raise (AttributeError
               ("'" ++ type_name o ++ "' object has no attribute 'to_string'"))
  end.

Section Handlers.
Variable lib : FuzzLib.
Variable env : DataLoader.Env.

(** The value of the call [load_csv_file(file_path)]: the tuple
    [(df, mapping, mapping_meta)]. *)
Definition call_load_csv_file (file_path : string) : result obj :=
  '(df, mapping, mapping_meta) <- DataLoader.load_csv_file lib env file_path ;;
  Ok (OTuple [OFrame df; OMapping mapping; OMeta mapping_meta]).

Section Upload.
Variable Response : Type.
(** [os.makedirs(settings.UPLOAD_DIR, exist_ok=True)]. *)
Variable makedirs : result unit.
(** Writing the uploaded content to [file_path]. *)
Variable save_upload : string -> result unit.
(** The rest of the [try] block, from [clean_data(df)] to the response. *)
Variable finish : obj -> obj -> result Response.
(** The removal of the files in the handler of the [try] block. *)
Variable cleanup : string -> result unit.

(** [upload_file(background_tasks, file)], for the file name and the path
    made from the fresh upload id. *)
Definition upload_file (filename file_path : string) : outcome Response :=
  if negb (endswith filename ".csv" || endswith filename ".CSV")
  then HTTPException 400 "Only CSV files are supported"
  else
    match makedirs with
    | Raise e => Uncaught e
    | Ok _ =>
        match (_ <- save_upload file_path ;;
               t <- call_load_csv_file file_path ;;
               '(df, mapping) <- unpack2 t ;;
               finish df mapping) with
        | Ok r => Returned r
        | Raise e =>
            match cleanup file_path with
            | Ok _ =>
                HTTPException 500 ("Error processing file: " ++ str_of_exn e)
            | Raise e' => Uncaught e'
            end
        end
    end.

End Upload.

Section Analyze.
(** The metadata of an upload is a dictionary, as [save_metadata] writes
    it and the signature of [load_metadata] says. *)
Variable Metadata Request Response : Type.
(** [load_metadata(upload_id)]. *)
Variable load_metadata : string -> option Metadata.
(** [not metadata]: the dictionary is empty. *)
Variable is_empty : Metadata -> bool.
(** The truth of [metadata.get("processed", False)]. *)
Variable processed : Metadata -> bool.
(** [metadata["processed_path"]]. *)
Variable processed_path : Metadata -> result string.
(** [df.to_string()] on a table. *)
Variable render : frame -> string.
(** The rest of the [try] block, from [generate_insight] on. *)
Variable finish : string -> Request -> string -> result Response.

(** [analyze(upload_id, request)]. *)
Definition analyze (upload_id : string) (request : Request)
  : outcome Response :=
  match load_metadata upload_id with
  | None => HTTPException 404 "Upload not found"
  | Some metadata =>
      if is_empty metadata then HTTPException 404 "Upload not found"
      else if negb (processed metadata)
      then HTTPException 400 "File is still being processed"
      else
        match (path <- processed_path metadata ;;
               df <- call_load_csv_file path ;;
               data_str <- to_string render df ;;
               finish upload_id request data_str) with
        | Ok r => Returned r
        | Raise e =>
            HTTPException 500 ("Error analyzing data: " ++ str_of_exn e)
        end
  end.

End Analyze.

End Handlers.

End Routes.


(** Vocabulary of the further statements. *)
Module More.
Import Py PyStr Shape SchemaConfig Registry.

(** The shape of a normalized header: lower-case letters, digits and
    single underscores, with no underscore at either end. *)
Definition snake_shape (s : string) : Prop :=
  all_snake (of_string s)
  /\ single_us (of_string s)
  /\ strip is_us (of_string s) = of_string s.

(** No string is claimed by two entries with different names. *)
Definition unambiguous (cfg : list entry) : Prop :=
  forall a, ~ ambiguous_alias cfg a.

End More.


(** Vocabulary of the statements about the basic cleaner. *)
Module Cleaned.
Import Py Pandas.

(** What the cleaner does to the values of one column: the strings of an
    object column are stripped, and what is missing, or is no string in
    an object column, becomes the empty string. *)
Definition clean_series (s : series) : series :=
  filled "" (if is_object_dtype (s_dtype s) then str_strip s else s).

(** What the cleaner does to one labelled column. *)
Definition clean_column (p : string * series) : string * series :=
  (SnakeCase.to_snake_case (fst p), clean_series (snd p)).

(** The object columns of the table hold strings and missing values
    only. *)
Definition text_columns (df : frame) : Prop :=
  Forall (fun p =>
            is_object_dtype (s_dtype (snd p)) = true ->
            Forall (fun v => (is_str v || isnull v)%bool = true)
                   (s_values (snd p)))
         (columns df).

(** The headers of the table after normalization. *)
Definition snake_labels (df : frame) : list string :=
  map SnakeCase.to_snake_case (labels df).

(** The columns of the table that hold a missing value are object or
    float64 columns. *)
Definition missing_in_object_or_float (df : frame) : Prop :=
  Forall (fun p =>
            has_null (snd p) = true ->
            s_dtype (snd p) = object \/ s_dtype (snd p) = float64)
         (columns df).

(** The column is of a nullable integer type and holds a missing
    value. *)
Definition nullable_integer_with_missing (s : series) : bool :=
  (is_nullable_integer (s_dtype s) && has_null s)%bool.

End Cleaned.


(** Further concrete tables used by the examples below. *)
Module MoreFixtures.
Import Py Pandas.
Open Scope string_scope.


(** A table with a float column that holds an infinity. *)
Definition with_infinity : frame :=
  {| nrows := 2;
     columns :=
       [("Price",
         {| s_dtype := float64; s_values := [VFloat 1; VInf false] |})] |}.


(** Column names of a "simple" export with one indicator missing, and
    with two missing. *)
Definition four_simple : list string :=
  ["Lead_Source"; "Listing_Price"; "Sold_Price"; "Profit"; "VIN"].
Definition three_simple : list string :=
  ["Lead_Source"; "Listing_Price"; "Sold_Price"; "VIN"].

End MoreFixtures.


(** Vocabulary of the statements about the column types. *)
Module Typed.
Import Py Pandas ColumnTypes.

(** A float infinity. *)
Definition is_inf (v : value) : bool :=
  match v with
  | VInf _ => true
  | _ => false
  end.

(** The column is numeric and holds an infinity. *)
Definition holds_infinity (s : series) : bool :=
  (is_numeric_dtype (s_dtype s) && existsb is_inf (s_values s))%bool.

(** A numeric column holds no string. *)
Definition numeric_values (s : series) : Prop :=
  is_numeric_dtype (s_dtype s) = true ->
  Forall (fun v => is_str v = false) (s_values s).

End Typed.

(** Vocabulary of the statements about the best match and the format
    detection. *)
Module Best.
Import Py Process.

(** [m] is the first of the choices with the largest score [sc]. *)
Definition first_maximum (scorer : Scorer) (query : string)
           (choices : list string) (m : string) (sc : Q) : Prop :=
  sc = scorer query m
  /\ exists pre post,
       choices = (pre ++ m :: post)%list
       /\ (forall c, In c pre -> scorer query c < sc)
       /\ (forall c, In c post -> scorer query c <= sc).

(** The number of indicators found among the lower-cased column names. *)
Definition indicator_count (indicators cols : list string) : nat :=
  List.length (filter (FormatDetection.in_columns cols) indicators).

End Best.


(* ===================================================================== *)
(** * Properties *)
(* ===================================================================== *)

(** ** Characters *)

Section CharFacts.
Import PyStr Shape.

Ltac by_cases c :=
  destruct c as [[|] [|] [|] [|] [|] [|] [|] [|]];
  vm_compute; intros; try reflexivity; try discriminate.

Lemma snake_char_not_upper c : snake_char c = true -> is_upper c = false.
Proof. by_cases c. Qed.

Lemma snake_char_alnum_or_us c :
  snake_char c = true -> is_alnum c = false -> c = underscore.
Proof. by_cases c. Qed.

Lemma snake_char_lower c : snake_char c = true -> lower_char c = c.
Proof. by_cases c. Qed.

Lemma lower_char_us c : is_us (lower_char c) = is_us c.
Proof. by_cases c. Qed.

Lemma lower_alnum_snake c :
  (is_alnum c || is_us c)%bool = true -> snake_char (lower_char c) = true.
Proof. by_cases c. Qed.

Lemma is_us_eq c : is_us c = true -> c = underscore.
Proof. unfold is_us. apply Ascii.eqb_eq. Qed.

End CharFacts.

(** ** Stripping *)

Section StripFacts.
Import PyStr Shape.
Variable p : ascii -> bool.

Lemma lstrip_head (s : chars) : head_outside p (lstrip p s).
Proof.
  induction s as [|c t IH]; simpl; [exact I|].
  destruct (p c) eqn:E; [exact IH | simpl; exact E].
Qed.

Lemma lstrip_fixed (s : chars) : head_outside p s -> lstrip p s = s.
Proof.
  destruct s as [|c t]; simpl; [reflexivity|].
  intros ->. reflexivity.
Qed.

Lemma rstrip_cons (c : ascii) (t : chars) :
  rstrip p (c :: t) = [] \/ exists t', rstrip p (c :: t) = c :: t'.
Proof.
  simpl. destruct (rstrip p t) as [|d t'].
  - destruct (p c); [left; reflexivity | right; exists []; reflexivity].
  - right. eexists. reflexivity.
Qed.

Lemma rstrip_head (s : chars) :
  head_outside p s -> head_outside p (rstrip p s).
Proof.
  destruct s as [|c t]; [intros _; exact I|].
  intros H. destruct (rstrip_cons c t) as [-> | [t' ->]]; [exact I|].
  exact H.
Qed.

Lemma rstrip_idem (s : chars) : rstrip p (rstrip p s) = rstrip p s.
Proof.
  induction s as [|c t IH]; [reflexivity|].
  simpl. destruct (rstrip p t) as [|d t'] eqn:E.
  - destruct (p c) eqn:Ec; simpl; [reflexivity|]. rewrite Ec. reflexivity.
  - change (rstrip p (c :: d :: t') = c :: d :: t').
    simpl in IH |- *. rewrite IH. reflexivity.
Qed.

Lemma strip_idem (s : chars) : strip p (strip p s) = strip p s.
Proof.
  unfold strip.
  rewrite (lstrip_fixed (rstrip p (lstrip p s))).
  - apply rstrip_idem.
  - apply rstrip_head, lstrip_head.
Qed.

Lemma lstrip_Forall (Q : ascii -> Prop) (s : chars) :
  Forall Q s -> Forall Q (lstrip p s).
Proof.
  induction 1 as [|c t Hc Ht IH]; simpl; [constructor|].
  destruct (p c); [exact IH | constructor; assumption].
Qed.

Lemma rstrip_Forall (Q : ascii -> Prop) (s : chars) :
  Forall Q s -> Forall Q (rstrip p s).
Proof.
  induction 1 as [|c t Hc Ht IH]; simpl; [constructor|].
  destruct (rstrip p t) as [|d t'].
  - destruct (p c); constructor; [assumption | constructor].
  - constructor; assumption.
Qed.

Lemma lstrip_single_us (s : chars) : single_us s -> single_us (lstrip p s).
Proof.
  induction s as [|c t IH]; simpl; [trivial|].
  intros [H1 H2]. destruct (p c); [apply IH; exact H2 | split; assumption].
Qed.

Lemma rstrip_single_us (s : chars) : single_us s -> single_us (rstrip p s).
Proof.
  induction s as [|c t IH]; [trivial|].
  intros [H1 H2]. specialize (IH H2).
  simpl. destruct (rstrip p t) as [|d t'] eqn:E.
  - destruct (p c); simpl; [trivial | split; [intros _; exact I | exact I]].
  - split; [|exact IH].
    intros Hc. specialize (H1 Hc).
    destruct t as [|d0 t0]; [discriminate E|].
    destruct (rstrip_cons d0 t0) as [E' | [t'' E']];
      rewrite E' in E; [discriminate E|].
    injection E as <- _. exact H1.
Qed.

End StripFacts.

(** ** Header normalization *)

Section SnakeCaseFacts.
Import PyStr Shape SnakeCase.

Lemma all_snake_no_upper s : all_snake s -> no_upper s.
Proof.
  unfold all_snake, no_upper. apply Forall_impl.
  intros c. apply snake_char_not_upper.
Qed.

(** Without a capital the first substitution finds no match. *)
Lemma sub_word_start_fixed s : no_upper s -> sub_word_start s = s.
Proof.
  funelim (sub_word_start s); intros Hs.
  - reflexivity.
  - simp sub_word_start. reflexivity.
  - inversion Hs as [|? ? _ Ht]; subst. f_equal; auto.
  - exfalso. inversion Hs as [|? ? _ Ht]; subst.
    inversion Ht as [|? ? Hu _]; subst.
    match goal with E : _ = true |- _ =>
      rewrite Hu, andb_false_r in E; discriminate E end.
  - inversion Hs as [|? ? _ Ht]; subst. f_equal; auto.
Qed.

(** Without a capital the second substitution finds no match. *)
Lemma sub_case_boundary_fixed s : no_upper s -> sub_case_boundary s = s.
Proof.
  induction s as [|a t IH]; [reflexivity|].
  intros Hs. inversion Hs as [|? ? _ Ht]; subst.
  simpl. destruct t as [|b t']; [reflexivity|].
  inversion Ht as [|? ? Hb _]; subst.
  rewrite Hb, andb_false_r. f_equal. apply IH. exact Ht.
Qed.

Lemma sub_non_alnum_range s : Forall alnum_or_us (sub_non_alnum s).
Proof.
  unfold sub_non_alnum. apply Forall_map, Forall_forall. intros c _.
  unfold alnum_or_us. destruct (is_alnum c) eqn:E.
  - rewrite E. reflexivity.
  - apply orb_true_r.
Qed.

Lemma sub_non_alnum_fixed s : all_snake s -> sub_non_alnum s = s.
Proof.
  unfold sub_non_alnum. induction 1 as [|c t Hc Ht IH]; [reflexivity|].
  simpl. rewrite IH. f_equal.
  destruct (is_alnum c) eqn:E; [reflexivity|].
  symmetry. apply snake_char_alnum_or_us; assumption.
Qed.

Lemma sub_underscores_range (Q : ascii -> Prop) s :
  Q underscore -> Forall Q s -> Forall Q (sub_underscores s).
Proof.
  intros Hu. funelim (sub_underscores s); intros Hs.
  - constructor.
  - inversion Hs; subst. constructor; [exact Hu|].
    auto using lstrip_Forall.
  - inversion Hs; subst. constructor; auto.
Qed.

Lemma sub_underscores_head s :
  head_outside is_us s -> head_outside is_us (sub_underscores s).
Proof.
  destruct s as [|c t]; [intros _; simp sub_underscores; exact I|].
  simpl. intros Hc. simp sub_underscores. rewrite Hc. simpl. exact Hc.
Qed.

Lemma sub_underscores_single s : single_us (sub_underscores s).
Proof.
  funelim (sub_underscores s).
  - exact I.
  - split; [|assumption].
    intros _. apply sub_underscores_head, lstrip_head.
  - split; [|assumption].
    intros Hc. rewrite Hc in Heq. discriminate Heq.
Qed.

Lemma sub_underscores_fixed s : single_us s -> sub_underscores s = s.
Proof.
  funelim (sub_underscores s); intros Hs.
  - reflexivity.
  - destruct Hs as [H1 H2]. specialize (H1 Heq).
    rewrite (lstrip_fixed _ _ H1) in *.
    rewrite (is_us_eq _ Heq). f_equal. auto.
  - destruct Hs as [_ H2]. f_equal. auto.
Qed.

Lemma lower_range s : Forall alnum_or_us s -> all_snake (lower s).
Proof.
  intros H. unfold all_snake, lower. apply Forall_map.
  revert H. apply Forall_impl. intros c. apply lower_alnum_snake.
Qed.

Lemma lower_head s :
  head_outside is_us s -> head_outside is_us (lower s).
Proof.
  destruct s as [|c t]; simpl; [trivial|]. rewrite lower_char_us. trivial.
Qed.

Lemma lower_single s : single_us s -> single_us (lower s).
Proof.
  induction s as [|c t IH]; simpl; [trivial|].
  intros [H1 H2]. split; [|apply IH; exact H2].
  rewrite lower_char_us. intros Hc. apply lower_head, H1, Hc.
Qed.

Lemma lower_fixed s : all_snake s -> lower s = s.
Proof.
  unfold lower. induction 1 as [|c t Hc Ht IH]; [reflexivity|].
  simpl. rewrite IH, snake_char_lower by assumption. reflexivity.
Qed.

(** What [to_snake_case] returns: snake characters only, no run of
    underscores, and it is its own strip. *)
Lemma to_snake_case_chars_shape s :
  let out := to_snake_case_chars s in
  all_snake out /\ single_us out /\ strip is_us out = out.
Proof.
  unfold to_snake_case_chars. cbv zeta.
  set (s3 := sub_non_alnum _).
  assert (H3 : Forall alnum_or_us (sub_underscores s3)).
  { apply sub_underscores_range; [reflexivity | apply sub_non_alnum_range]. }
  split; [|split].
  - apply rstrip_Forall, lstrip_Forall, lower_range, H3.
  - apply rstrip_single_us, lstrip_single_us, lower_single,
      sub_underscores_single.
  - apply strip_idem.
Qed.

Lemma to_snake_case_chars_fixed s :
  all_snake s -> single_us s -> strip is_us s = s ->
  to_snake_case_chars s = s.
Proof.
  intros Ha Hs Hst. unfold to_snake_case_chars. cbv zeta.
  rewrite (sub_word_start_fixed (all_snake_no_upper Ha)).
  rewrite (sub_case_boundary_fixed (all_snake_no_upper Ha)).
  rewrite (sub_non_alnum_fixed Ha).
  rewrite (sub_underscores_fixed _ Hs).
  rewrite (lower_fixed Ha). exact Hst.
Qed.

Lemma to_snake_case_chars_idem s :
  to_snake_case_chars (to_snake_case_chars s) = to_snake_case_chars s.
Proof.
  destruct (to_snake_case_chars_shape s) as (Ha & Hs & Hst).
  apply to_snake_case_chars_fixed; assumption.
Qed.

End SnakeCaseFacts.

(** C6. The header normalization of the basic cleaner is idempotent:
    for every string [s], [to_snake_case (to_snake_case s)] equals
    [to_snake_case s]. *)
Theorem to_snake_case_idempotent (s : string) :
  SnakeCase.to_snake_case (SnakeCase.to_snake_case s)
  = SnakeCase.to_snake_case s.
Proof.
  unfold SnakeCase.to_snake_case, PyStr.of_string, PyStr.to_string.
  rewrite list_ascii_of_string_of_list_ascii.
  rewrite to_snake_case_chars_idem. reflexivity.
Qed.

(** ** Best match *)

Section ProcessFacts.
Import Py Process ColumnMatcher.
Variable scorer : Scorer.
Variable query : string.

Let hit_of := Registry.hit_of scorer query.

Lemma extractOne_from_hit (all : list string) :
  forall choices i best h,
    incl choices all ->
    (forall b, best = Some b -> hit_of all b) ->
    extractOne_from scorer query choices i best = Some h ->
    hit_of all h.
Proof.
  induction choices as [|c rest IH]; intros i best h Hincl Hbest; simpl.
  - intros ->. apply Hbest. reflexivity.
  - assert (Hc : In c all) by (apply Hincl; left; reflexivity).
    assert (Hrest : incl rest all)
      by (intros x Hx; apply Hincl; right; exact Hx).
    set (best' := match best with
                  | None => Some (c, scorer query c, i)
                  | Some (_, bscore, _) =>
                      if Qle_bool (scorer query c) bscore then best
                      else Some (c, scorer query c, i)
                  end).
    assert (Hbest' : forall b, best' = Some b -> hit_of all b).
    { intros b. unfold best'. destruct best as [[[bc bs] bi]|].
      - destruct (Qle_bool (scorer query c) bs).
        + apply Hbest.
        + intros [= <-]. split; [exact Hc | reflexivity].
      - intros [= <-]. split; [exact Hc | reflexivity]. }
    destruct (Qeq_bool (scorer query c) 100).
    + intros E. apply Hbest'. exact E.
    + apply IH; assumption.
Qed.

Lemma extractOne_from_some :
  forall choices i b,
    exists h, extractOne_from scorer query choices i (Some b) = Some h.
Proof.
  induction choices as [|c rest IH]; intros i b; simpl.
  - exists b. reflexivity.
  - destruct b as [[bc bs] bi].
    destruct (Qle_bool (scorer query c) bs);
      destruct (Qeq_bool (scorer query c) 100); eauto.
Qed.

Lemma extractOne_cons (c : string) (rest : list string) :
  exists h, extractOne scorer query (c :: rest) = Some h
            /\ hit_of (c :: rest) h.
Proof.
  assert (E : exists h, extractOne scorer query (c :: rest) = Some h).
  { unfold extractOne. simpl.
    destruct (Qeq_bool (scorer query c) 100); [eauto|].
    apply extractOne_from_some. }
  destruct E as [h E]. exists h. split; [exact E|].
  apply (extractOne_from_hit (all := c :: rest)) with (3 := E).
  - apply incl_refl.
  - discriminate.
Qed.

Let hit_score := Registry.hit_score.

(** Under a scorer that stays within 100, the hit that is returned
    carries the largest score among the choices. *)
Lemma extractOne_from_max :
  forall choices i best h,
    (forall c, In c choices -> scorer query c <= 100) ->
    extractOne_from scorer query choices i best = Some h ->
    (forall b, best = Some b -> hit_score b <= hit_score h)
    /\ (forall c, In c choices -> scorer query c <= hit_score h).
Proof.
  induction choices as [|c rest IH]; intros i best h Hb; simpl.
  - intros ->. split; [|intros c []].
    intros b [= ->]. apply Qle_refl.
  - set (sc := scorer query c).
    set (best' := match best with
                  | None => Some (c, sc, i)
                  | Some (_, bscore, _) =>
                      if Qle_bool sc bscore then best else Some (c, sc, i)
                  end).
    assert (F : exists h', best' = Some h'
                /\ sc <= hit_score h'
                /\ forall b, best = Some b -> hit_score b <= hit_score h').
    { unfold best'. destruct best as [[[bc bs] bi]|].
      - destruct (Qle_bool sc bs) eqn:E.
        + exists (bc, bs, bi). split; [reflexivity|]. split.
          * apply Qle_bool_iff. exact E.
          * intros b [= <-]. apply Qle_refl.
        + exists (c, sc, i). split; [reflexivity|]. split.
          * apply Qle_refl.
          * intros b [= <-]. unfold hit_score, Registry.hit_score. simpl.
            apply Qlt_le_weak, Qnot_le_lt. intros H.
            apply Qle_bool_iff in H. congruence.
      - exists (c, sc, i). split; [reflexivity|]. split.
        + apply Qle_refl.
        + discriminate. }
    destruct F as (h' & Eh' & Hsc & Hbest).
    assert (Hrest : forall x, In x rest -> scorer query x <= 100)
      by (intros x Hx; apply Hb; right; exact Hx).
    destruct (Qeq_bool sc 100) eqn:E100.
    + rewrite Eh'. intros [= <-]. split; [exact Hbest|].
      intros x Hx. apply Qle_trans with (2 := Hsc).
      apply Qeq_bool_iff in E100. rewrite E100. apply Hb. exact Hx.
    + intros E. destruct (IH _ _ _ Hrest E) as [H1 H2]. split.
      * intros b Hbeq. eapply Qle_trans; [apply Hbest; exact Hbeq|].
        apply H1. exact Eh'.
      * intros x [<- | Hx]; [|apply H2; exact Hx].
        eapply Qle_trans; [exact Hsc|]. apply H1. exact Eh'.
Qed.

Lemma best_match_score_cons (c : string) (rest : list string) :
  exists m sc,
    best_match_score query (c :: rest) scorer = Ok (m, sc)
    /\ In m (c :: rest) /\ sc = scorer query m.
Proof.
  destruct (extractOne_cons c rest) as ([[m sc] i] & E & Hin & Hsc).
  exists m, sc. unfold best_match_score. rewrite E. auto.
Qed.

End ProcessFacts.

(** C8. With no choice, [best_match_score] does not return a pair:
    [extractOne] yields nothing and unpacking it raises [TypeError]; with
    at least one choice it returns one of the choices and its score. *)
Theorem best_match_score_needs_choices
        (scorer : Process.Scorer) (query : string) :
  Process.extractOne scorer query [] = None
  /\ (exists msg,
        ColumnMatcher.best_match_score query [] scorer
        = Py.Raise (Py.TypeError msg))
  /\ (forall c rest, exists m sc,
        ColumnMatcher.best_match_score query (c :: rest) scorer
        = Py.Ok (m, sc)
        /\ In m (c :: rest) /\ sc = scorer query m).
Proof.
  split; [reflexivity|]. split.
  - eexists. reflexivity.
  - intros c rest. apply best_match_score_cons.
Qed.

(** ** Dictionaries and the alias lookup *)

Section DictFacts.
Import Py.
Context {V : Type}.

Lemma dict_get_set_same (k : string) (v : V) (d : dict V) :
  dict_get k (dict_set k v d) = Some v.
Proof.
  induction d as [|[k' v'] d IH]; simpl.
  - rewrite String.eqb_refl. reflexivity.
  - destruct (String.eqb k' k) eqn:E; simpl; rewrite E; auto.
Qed.

Lemma dict_get_set_other (k k' : string) (v : V) (d : dict V) :
  k <> k' -> dict_get k (dict_set k' v d) = dict_get k d.
Proof.
  intros Hne. induction d as [|[k0 v0] d IH]; simpl.
  - destruct (String.eqb k' k) eqn:E; [|reflexivity].
    apply String.eqb_eq in E. congruence.
  - destruct (String.eqb k0 k') eqn:E; simpl.
    + apply String.eqb_eq in E. subst k0.
      destruct (String.eqb k' k) eqn:E'; [|reflexivity].
      apply String.eqb_eq in E'. congruence.
    + rewrite IH. reflexivity.
Qed.

Lemma dict_set_keys_nonempty (k : string) (v : V) (d : dict V) :
  dict_keys (dict_set k v d) <> [].
Proof.
  destruct d as [|[k' v'] d]; simpl; [discriminate|].
  destruct (String.eqb k' k); discriminate.
Qed.

End DictFacts.

Section RegistryFacts.
Import Py SchemaConfig Registry.

Lemma add_aliases_other (a c : string) (als : list string) :
  ~ In a als ->
  forall d,
    dict_get a (fold_left (fun d alias => dict_set alias c d) als d)
    = dict_get a d.
Proof.
  induction als as [|x als IH]; intros Hn d; simpl; [reflexivity|].
  rewrite IH by (intros H; apply Hn; right; exact H).
  apply dict_get_set_other. intros ->. apply Hn. left. reflexivity.
Qed.

Lemma add_aliases_claimed (a c : string) (als : list string) :
  In a als ->
  forall d,
    dict_get a (fold_left (fun d alias => dict_set alias c d) als d)
    = Some c.
Proof.
  induction als as [|x als IH]; intros Hin d; simpl; [destruct Hin|].
  destruct (in_dec string_dec a als) as [Hl | Hl].
  - apply IH. exact Hl.
  - destruct Hin as [-> | Hin]; [|contradiction].
    rewrite add_aliases_other by exact Hl.
    apply dict_get_set_same.
Qed.

Lemma add_entry_other (e : entry) (a : string) (d : dict string) :
  ~ claims e a -> dict_get a (add_entry d e) = dict_get a d.
Proof.
  intros Hn. unfold add_entry.
  rewrite dict_get_set_other
    by (intros ->; apply Hn; left; reflexivity).
  apply add_aliases_other. intros H. apply Hn. right. exact H.
Qed.

Lemma add_entry_claimed (e : entry) (a : string) (d : dict string) :
  claims e a -> dict_get a (add_entry d e) = Some (name e).
Proof.
  intros Hc. unfold add_entry.
  destruct (string_dec a (name e)) as [-> | Hne].
  - apply dict_get_set_same.
  - rewrite dict_get_set_other by exact Hne.
    destruct Hc as [-> | Hin]; [contradiction|].
    apply add_aliases_claimed. exact Hin.
Qed.

Lemma fold_add_entry_other (a : string) (cfg : list entry) :
  (forall e, In e cfg -> ~ claims e a) ->
  forall d, dict_get a (fold_left add_entry cfg d) = dict_get a d.
Proof.
  induction cfg as [|e cfg IH]; intros Hn d; simpl; [reflexivity|].
  rewrite IH by (intros e' H; apply Hn; right; exact H).
  apply add_entry_other. apply Hn. left. reflexivity.
Qed.

Lemma add_entry_keys_nonempty (e : entry) (d : dict string) :
  dict_keys (add_entry d e) <> [].
Proof. apply dict_set_keys_nonempty. Qed.

Lemma fold_add_entry_keys_nonempty (cfg : list entry) :
  forall d, dict_keys d <> [] ->
            dict_keys (fold_left add_entry cfg d) <> [].
Proof.
  induction cfg as [|e cfg IH]; intros d Hd; simpl; [exact Hd|].
  apply IH, add_entry_keys_nonempty.
Qed.

Lemma build_keys_nonempty (cfg : list entry) :
  cfg <> [] -> dict_keys (build_alias_to_canonical cfg) <> [].
Proof.
  destruct cfg as [|e cfg]; [congruence|]. intros _.
  unfold build_alias_to_canonical. simpl.
  apply fold_add_entry_keys_nonempty, add_entry_keys_nonempty.
Qed.

End RegistryFacts.

(** C2, as the code has it. Building the lookup never fails and rejects
    nothing: a string claimed by several entries resolves to the name of
    the last entry, in configuration order, that claims it. *)
Theorem build_alias_to_canonical_last_claimant
        (before after : list SchemaConfig.entry) (e : SchemaConfig.entry)
        (a : string) :
  Registry.claims e a ->
  (forall e', In e' after -> ~ Registry.claims e' a) ->
  Py.dict_get a
    (SchemaConfig.build_alias_to_canonical (before ++ e :: after))
  = Some (SchemaConfig.name e).
Proof.
  intros Hc Hafter. unfold SchemaConfig.build_alias_to_canonical.
  rewrite fold_left_app. simpl.
  rewrite fold_add_entry_other by exact Hafter.
  apply add_entry_claimed. exact Hc.
Qed.

Lemma build_alias_to_canonical_last_claimant_witness :
  Registry.claims Examples.listed_date "date"%string
  /\ Py.dict_get "date"%string
       (SchemaConfig.build_alias_to_canonical Examples.ambiguous_config)
     = Some "ListedDate"%string.
Proof.
  assert (H : Registry.claims Examples.listed_date "date"%string)
    by (right; left; reflexivity).
  split; [exact H|].
  apply (@build_alias_to_canonical_last_claimant
           [Examples.sold_date] [] Examples.listed_date "date"%string H).
  intros e' [].
Defined.

(** The claim C2 fails on the code: over a vocabulary in which "SoldDate"
    and "ListedDate" both claim "date", the lookup is built without any
    error and resolves "date" to the claimant "ListedDate". *)
Lemma ambiguous_alias_resolved_silently :
  Registry.ambiguous_alias Examples.ambiguous_config "date"%string
  /\ Py.dict_get "date"%string
       (SchemaConfig.build_alias_to_canonical Examples.ambiguous_config)
     = Some "ListedDate"%string.
Proof.
  split.
  - exists Examples.sold_date, Examples.listed_date.
    repeat split.
    + left. reflexivity.
    + right. left. reflexivity.
    + discriminate.
    + right. left. reflexivity.
    + right. left. reflexivity.
  - reflexivity.
Qed.

(** ** Calling the scorer *)

Section CallFacts.
Import Py Process ColumnMatcher.

(** A function without the keyword is refused at the first choice. *)
Lemma call_best_match_score_refused (scorer : function) (query c : string)
      (rest : list string) :
  accepts_score_cutoff scorer = false ->
  call_best_match_score query (c :: rest) scorer
  = Raise (TypeError
             (fn_name scorer
              ++ "() got an unexpected keyword argument 'score_cutoff'")).
Proof.
  intros Ha. unfold call_best_match_score, extractOne_calling.
  cbn [extractOne_calls]. unfold call_scorer. rewrite Ha. reflexivity.
Qed.

(** [token_ratio] as the scorer: the call never returns. *)
Lemma call_best_match_score_token_ratio (lib : FuzzLib) (query : string)
      (choices : list string) :
  call_best_match_score query choices (token_ratio_function lib)
  = Raise (TypeError
             match choices with
             | [] => "cannot unpack non-iterable NoneType object"
             | _ :: _ =>
                 "token_ratio() got an unexpected keyword argument 'score_cutoff'"
             end).
Proof.
  destruct choices as [|c rest]; [reflexivity|].
  apply (@call_best_match_score_refused (token_ratio_function lib)).
  reflexivity.
Qed.

End CallFacts.

(** ** Column reconciliation *)

Section MappingFacts.
Import Py Process ColumnMatcher SchemaConfig DataLoader.
Variable lib : FuzzLib.

Lemma map_column_refused (a2c : dict string) (col : string)
      (acc : dict string * list column_mapping) :
  dict_keys a2c <> [] ->
  map_column lib a2c col acc
  = Raise (TypeError
             "token_ratio() got an unexpected keyword argument 'score_cutoff'").
Proof.
  intros Hk. unfold map_column. destruct acc as [mapping meta].
  rewrite call_best_match_score_token_ratio.
  destruct (dict_keys a2c); [congruence | reflexivity].
Qed.

Lemma fuzzy_column_mapping_refused (cfg : list entry) (col : string)
      (rest : list string) :
  cfg <> [] ->
  fuzzy_column_mapping lib cfg (col :: rest)
  = Raise (TypeError
             "token_ratio() got an unexpected keyword argument 'score_cutoff'").
Proof.
  intros Hcfg. unfold fuzzy_column_mapping. cbn [map_columns].
  rewrite map_column_refused by (apply build_keys_nonempty; exact Hcfg).
  reflexivity.
Qed.

End MappingFacts.

(** C3 fails on the code. Over every vocabulary with an entry, column
    reconciliation raises [TypeError] at the first column of every list
    of column names that has one: the call of [token_ratio] is refused,
    so no column gets a record and no column is passed through. *)
Theorem column_mapping_stops_at_first_column
        (lib : FuzzLib) (e : SchemaConfig.entry)
        (cfg : list SchemaConfig.entry) (col : string)
        (rest : list string) :
  DataLoader.fuzzy_column_mapping lib (e :: cfg) (col :: rest)
  = Py.Raise
      (Py.TypeError
         "token_ratio() got an unexpected keyword argument 'score_cutoff'").
Proof.
  apply fuzzy_column_mapping_refused. discriminate.
Qed.

(** C1 fails on the code. The column "sale_price" is an alias of
    "SellingPrice"; its best match in the alias universe is itself, with
    the weighted-ratio score 100, so the claim has it mapped to
    "SellingPrice". The loader hands the scoring to [token_ratio], whose
    call is refused: reconciliation raises [TypeError], whatever the
    scorers of the library compute, and no column is scored or mapped. *)
Theorem column_mapping_refuses_exact_alias :
  Py.dict_get "sale_price"%string
    (SchemaConfig.build_alias_to_canonical SchemaConfig.EXPECTED_COLUMNS)
  = Some "SellingPrice"%string
  /\ (exists sc,
         ColumnMatcher.best_match_score "sale_price"%string
           (Py.dict_keys
              (SchemaConfig.build_alias_to_canonical
                 SchemaConfig.EXPECTED_COLUMNS))
           (ColumnMatcher.default_scorer RapidFuzz.lib)
         = Py.Ok ("sale_price"%string, sc)
         /\ sc == 100)
  /\ forall lib rest,
       DataLoader.fuzzy_column_mapping lib SchemaConfig.EXPECTED_COLUMNS
         ("sale_price"%string :: rest)
       = Py.Raise
           (Py.TypeError
              "token_ratio() got an unexpected keyword argument 'score_cutoff'").
Proof.
  split; [reflexivity|]. split.
  - eexists. split; [vm_compute; reflexivity | vm_compute; reflexivity].
  - intros lib rest. apply fuzzy_column_mapping_refused. discriminate.
Qed.

(** ** Value normalization *)

Section NormalizerFacts.
Import Py Process ColumnMatcher SchemaConfig DataCleaner.
Variable lib : FuzzLib.
Variable a2c : dict string.

Let cands := dict_keys a2c.

Lemma normalize_value_not_str v meta :
  is_str v = false -> normalize_value lib a2c cands v meta = Ok (v, meta).
Proof.
  unfold normalize_value. destruct v; cbn [isnull is_str negb orb];
    intros H; try reflexivity. discriminate H.
Qed.

(** A string makes [normalize_value] call the scorer, which is refused. *)
Lemma normalize_value_str s meta :
  cands <> [] ->
  normalize_value lib a2c cands (VStr s) meta
  = Raise (TypeError
             "token_ratio() got an unexpected keyword argument 'score_cutoff'").
Proof.
  intros Hk. unfold normalize_value. cbn [isnull is_str negb orb].
  rewrite call_best_match_score_token_ratio.
  destruct cands; [congruence | reflexivity].
Qed.

Lemma apply_normalize_value_not_str vals :
  Forall (fun v => is_str v = false) vals ->
  forall meta,
    apply_normalize_value lib a2c cands vals meta = Ok (vals, meta).
Proof.
  induction 1 as [|v rest Hv _ IH]; intros meta;
    cbn [apply_normalize_value]; [reflexivity|].
  rewrite (normalize_value_not_str _ meta Hv). cbn [bind].
  rewrite IH. reflexivity.
Qed.

(** The first string of the column stops [apply]. *)
Lemma apply_normalize_value_str vals :
  cands <> [] ->
  Exists (fun v => is_str v = true) vals ->
  forall meta,
    apply_normalize_value lib a2c cands vals meta
    = Raise (TypeError
               "token_ratio() got an unexpected keyword argument 'score_cutoff'").
Proof.
  intros Hk. induction vals as [|v rest IH]; intros H meta;
    [inversion H|].
  cbn [apply_normalize_value].
  destruct (is_str v) eqn:Hv.
  - destruct v; try discriminate Hv.
    rewrite (normalize_value_str _ meta Hk). reflexivity.
  - rewrite (normalize_value_not_str _ meta Hv). cbn [bind].
    apply Exists_cons in H. destruct H as [H | H]; [congruence|].
    rewrite (IH H meta). reflexivity.
Qed.

End NormalizerFacts.

(** C4, as the code has it. A missing value and a value that is no
    string pass through the normalizer unchanged and leave no record: a
    column that holds only such values comes back as it is, in the same
    order and with the same length, and no record is made. *)
Theorem normalize_values_skips_non_strings
        (lib : FuzzLib) (cfg : list SchemaConfig.entry)
        (vals : list Py.value) :
  Forall (fun v => Py.is_str v = false) vals ->
  DataCleaner.normalize_values lib cfg vals = Py.Ok (vals, []).
Proof.
  intros H. unfold DataCleaner.normalize_values.
  apply apply_normalize_value_not_str. exact H.
Qed.

Lemma normalize_values_skips_non_strings_witness :
  Forall (fun v => Py.is_str v = false)
         [Py.VNone; Py.VInt 3; Py.VNaN]
  /\ DataCleaner.normalize_values RapidFuzz.lib SchemaConfig.LEAD_SOURCES
       [Py.VNone; Py.VInt 3; Py.VNaN]
     = Py.Ok ([Py.VNone; Py.VInt 3; Py.VNaN], []).
Proof.
  assert (H : Forall (fun v => Py.is_str v = false)
                     [Py.VNone; Py.VInt 3; Py.VNaN])
    by (repeat constructor).
  split; [exact H|].
  exact (@normalize_values_skips_non_strings RapidFuzz.lib
           SchemaConfig.LEAD_SOURCES _ H).
Defined.

(** The claim C4 fails on the code: the column [None, 3, NaN] has three
    values, it comes back unchanged, and not one record is made. *)
Lemma normalize_values_skips_without_record :
  exists meta,
    DataCleaner.normalize_values RapidFuzz.lib SchemaConfig.LEAD_SOURCES
      [Py.VNone; Py.VInt 3; Py.VNaN]
    = Py.Ok ([Py.VNone; Py.VInt 3; Py.VNaN], meta)
    /\ List.length meta <> List.length [Py.VNone; Py.VInt 3; Py.VNaN].
Proof.
  exists []. split; [reflexivity | discriminate].
Qed.

(** ** Labels and columns *)

Section LabelFacts.
Import Py Pandas.

Lemma set_assoc_labels col s (l : list (string * series)) s0 :
  assoc col l = Some s0 -> map fst (set_assoc col s l) = map fst l.
Proof.
  induction l as [|[k s'] l IH]; simpl; [discriminate|].
  destruct (String.eqb k col) eqn:E; simpl; [reflexivity|].
  intros H. rewrite IH by exact H. reflexivity.
Qed.

Lemma getitem_assoc df col s :
  getitem df col = Ok s -> assoc col (columns df) = Some s.
Proof.
  unfold getitem. destruct (assoc col (columns df)) as [s0|]; [|discriminate].
  destruct (Nat.ltb 1 (count_label col df)); [discriminate|].
  intros [= ->]. reflexivity.
Qed.

Lemma setitem_labels df col s s0 :
  getitem df col = Ok s0 -> labels (setitem df col s) = labels df.
Proof.
  intros H. unfold labels, setitem. simpl.
  eapply set_assoc_labels. apply getitem_assoc. exact H.
Qed.

Lemma assoc_label df col :
  In col (labels df) -> exists s, assoc col (columns df) = Some s.
Proof.
  unfold labels. induction (columns df) as [|[k s] l IH]; simpl;
    [intros []|].
  intros [-> | H].
  - rewrite String.eqb_refl. eauto.
  - destruct (String.eqb k col); eauto.
Qed.

Lemma count_label_nodup (col : string) (df : frame) :
  NoDup (labels df) -> (count_label col df <= 1)%nat.
Proof.
  unfold count_label. induction (labels df) as [|k l IH]; simpl; [lia|].
  intros Hnd. inversion Hnd as [|? ? Hk Hl]; subst.
  destruct (String.eqb col k) eqn:E; simpl; [|apply IH; exact Hl].
  apply String.eqb_eq in E. subst k.
  assert (H0 : List.length (filter (String.eqb col) l) = 0%nat).
  { clear IH Hnd Hl. induction l as [|x l IHl]; simpl; [reflexivity|].
    destruct (String.eqb col x) eqn:Ex.
    - apply String.eqb_eq in Ex. subst x. exfalso. apply Hk. left.
      reflexivity.
    - apply IHl. intros H. apply Hk. right. exact H. }
  lia.
Qed.

Lemma getitem_nodup (df : frame) (col : string) :
  NoDup (labels df) -> In col (labels df) ->
  exists s, assoc col (columns df) = Some s /\ getitem df col = Ok s.
Proof.
  intros Hnd Hin. destruct (assoc_label _ _ Hin) as [s Hs].
  exists s. split; [exact Hs|]. unfold getitem. rewrite Hs.
  pose proof (@count_label_nodup col df Hnd) as Hc.
  destruct (Nat.ltb 1 (count_label col df)) eqn:E; [|reflexivity].
  apply Nat.ltb_lt in E. lia.
Qed.

Lemma assoc_in_map (col : string) (s : series) l :
  assoc col l = Some s -> In (col, s) l.
Proof.
  induction l as [|[k s'] l IH]; simpl; [discriminate|].
  destruct (String.eqb k col) eqn:E.
  - apply String.eqb_eq in E. intros [= ->]. left. congruence.
  - intros H. right. apply IH. exact H.
Qed.

Lemma in_nodup_assoc (col : string) (s : series) l :
  NoDup (map fst l) -> In (col, s) l -> assoc col l = Some s.
Proof.
  induction l as [|[k s'] l IH]; simpl; [intros _ []|].
  intros Hnd Hin. inversion Hnd as [|? ? Hk Hl]; subst.
  destruct Hin as [[= -> ->] | Hin].
  - rewrite String.eqb_refl. reflexivity.
  - destruct (String.eqb k col) eqn:E.
    + apply String.eqb_eq in E. subst k. exfalso. apply Hk.
      apply (in_map fst) in Hin. exact Hin.
    + apply IH; assumption.
Qed.

Lemma assoc_set_assoc_other c col s (l : list (string * series)) :
  c <> col -> assoc c (set_assoc col s l) = assoc c l.
Proof.
  intros Hne. induction l as [|[k s'] l IH]; simpl.
  - destruct (String.eqb col c) eqn:E; [|reflexivity].
    apply String.eqb_eq in E. congruence.
  - destruct (String.eqb k col) eqn:E; simpl.
    + apply String.eqb_eq in E. subst k.
      destruct (String.eqb col c) eqn:E'; [|reflexivity].
      apply String.eqb_eq in E'. congruence.
    + rewrite IH. reflexivity.
Qed.


End LabelFacts.

(** ** Type coercion and validation in the loader *)

Section PromotionMore.
Import Py Pandas DataLoader.
Variable env : Env.

(** The columns the promotion leaves alone. *)
Let kept (s : series) : Prop :=
  (is_integer_dtype (s_dtype s) && has_null s)%bool = false.

Lemma promote_column_keeps df col df' :
  promote_column env df col = Ok df' ->
  labels df' = labels df
  /\ nrows df' = nrows df
  /\ forall c s, assoc c (columns df) = Some s -> kept s ->
                 assoc c (columns df') = Some s.
Proof.
  unfold promote_column.
  destruct (getitem df col) as [s0|e] eqn:G; cbn [bind]; [|discriminate].
  destruct (is_integer_dtype (s_dtype s0) && has_null s0)%bool eqn:C.
  - destruct (try_except (astype_Int64 env s0)
                         (fun _ => astype_float64 env s0))
      as [s1|e]; cbn [bind]; [|discriminate].
    intros [= <-]. split; [eapply setitem_labels; exact G|].
    split; [reflexivity|].
    intros c s Hc Hk. simpl.
    destruct (string_dec c col) as [-> | Hne].
    + apply getitem_assoc in G. rewrite G in Hc. injection Hc as ->.
      unfold kept in Hk. congruence.
    + rewrite assoc_set_assoc_other by exact Hne. exact Hc.
  - intros [= <-]. auto.
Qed.

Lemma promote_columns_keeps cols :
  forall df df',
    promote_columns env df cols = Ok df' ->
    labels df' = labels df
    /\ nrows df' = nrows df
    /\ forall c s, assoc c (columns df) = Some s -> kept s ->
                   assoc c (columns df') = Some s.
Proof.
  induction cols as [|col rest IH]; intros df df'; cbn [promote_columns].
  - intros [= <-]. auto.
  - destruct (promote_column env df col) as [df1|e] eqn:E; cbn [bind];
      [|discriminate].
    intros H. destruct (promote_column_keeps _ _ E) as (L1 & N1 & K1).
    destruct (IH _ _ H) as (L2 & N2 & K2).
    split; [congruence|]. split; [congruence|].
    intros c s Hc Hk. apply K2; [apply K1; assumption | exact Hk].
Qed.

End PromotionMore.

Section PromotionFacts.
Import Py Pandas DataLoader.
Variable env : Env.










End PromotionFacts.




Section LoaderFacts.
Import Py Pandas SchemaConfig DataLoader.
Variable lib : FuzzLib.
Variable env : Env.

(** Once the sample has a column, the body of the loader stops in the
    column reconciliation. *)
Lemma load_body_refused path sample df_sample col rest :
  read_head env path = Ok sample ->
  read_csv_sample env path (sniff_delimiter sample) = Ok df_sample ->
  labels df_sample = col :: rest ->
  load_body lib env path
  = Raise (TypeError
             "token_ratio() got an unexpected keyword argument 'score_cutoff'").
Proof.
  intros Hh Hs Hl. unfold load_body. rewrite Hh. cbn [bind].
  rewrite Hs. cbn [bind]. rewrite Hl.
  rewrite fuzzy_column_mapping_refused by discriminate. reflexivity.
Qed.

Lemma load_csv_file_refused path sample df_sample col rest :
  path_exists env path = true ->
  read_head env path = Ok sample ->
  read_csv_sample env path (sniff_delimiter sample) = Ok df_sample ->
  labels df_sample = col :: rest ->
  load_csv_file lib env path
  = Raise (TypeError
             "token_ratio() got an unexpected keyword argument 'score_cutoff'").
Proof.
  intros Hp Hh Hs Hl. unfold load_csv_file. rewrite Hp. cbn [negb].
  rewrite (load_body_refused _ Hh Hs Hl). reflexivity.
Qed.

End LoaderFacts.

(** C10 fails on the code. For every file that exists and whose sample
    read gives a table with a column, [load_csv_file] raises the
    [TypeError] of the column reconciliation: the full read and the
    validation that refuses a table with fewer than two columns are never
    reached, whatever the number of columns. *)
Theorem load_csv_file_stops_before_validation
        (lib : FuzzLib) (env : DataLoader.Env) (file_path sample : string)
        (df_sample : Pandas.frame) (col : string) (rest : list string) :
  DataLoader.path_exists env file_path = true ->
  DataLoader.read_head env file_path = Py.Ok sample ->
  DataLoader.read_csv_sample env file_path
    (DataLoader.sniff_delimiter sample) = Py.Ok df_sample ->
  Pandas.labels df_sample = col :: rest ->
  DataLoader.load_csv_file lib env file_path
  = Py.Raise
      (Py.TypeError
         "token_ratio() got an unexpected keyword argument 'score_cutoff'").
Proof.
  intros Hp Hh Hs Hl. eapply load_csv_file_refused; eassumption.
Qed.

Lemma load_csv_file_stops_before_validation_witness :
  Pandas.empty Fixtures.one_column = false
  /\ DataLoader.basic_validation Fixtures.one_column
     = Py.Raise
         (Py.ValueError "The CSV file must have at least two columns")
  /\ DataLoader.load_csv_file RapidFuzz.lib
       (Fixtures.file_env Fixtures.one_column Fixtures.to_Int64)
       "sales.csv"%string
     = Py.Raise
         (Py.TypeError
            "token_ratio() got an unexpected keyword argument 'score_cutoff'").
Proof.
  split; [reflexivity|]. split; [reflexivity|].
  apply (@load_csv_file_stops_before_validation RapidFuzz.lib
           (Fixtures.file_env Fixtures.one_column Fixtures.to_Int64)
           "sales.csv"%string "price,qty"%string Fixtures.one_column
           "price"%string []); reflexivity.
Defined.

(** ** The basic cleaner and the interpreter state *)

Section FrameFacts.
Import Py Pandas Frame.

Lemma set_labels_labels df (g : string -> string) :
  labels (set_labels df (map g (labels df))) = map g (labels df).
Proof.
  unfold labels, set_labels. simpl.
  induction (columns df) as [|[k s] l IH]; simpl; [reflexivity|].
  rewrite IH. reflexivity.
Qed.

Lemma filled_no_null fill s : has_null (filled fill s) = false.
Proof.
  unfold has_null, filled. simpl.
  induction (s_values s) as [|v l IH]; simpl; [reflexivity|].
  rewrite IH. destruct (isnull v) eqn:E; simpl; [reflexivity|].
  rewrite E. reflexivity.
Qed.

Lemma series_fillna_ok fill s s' :
  series_fillna fill s = Ok s' -> s' = filled fill s.
Proof.
  unfold series_fillna.
  destruct (is_nullable_integer (s_dtype s) && has_null s)%bool;
    [discriminate|].
  intros [= <-]. reflexivity.
Qed.

Lemma fillna_columns_ok fill l :
  forall l',
    fillna_columns fill l = Ok l' ->
    l' = map (fun p => (fst p, filled fill (snd p))) l.
Proof.
  induction l as [|[k s] l IH]; intros l'; cbn [fillna_columns].
  - intros [= <-]. reflexivity.
  - destruct (series_fillna fill s) as [s1|e] eqn:E; cbn [bind];
      [|discriminate].
    destruct (fillna_columns fill l) as [r|e] eqn:E2; cbn [bind];
      [|discriminate].
    intros [= <-]. simpl. rewrite (series_fillna_ok _ _ E).
    rewrite (IH _ eq_refl). reflexivity.
Qed.

Lemma fillna_ok fill df df' :
  fillna fill df = Ok df' ->
  df' = {| nrows := nrows df;
           columns := map (fun p => (fst p, filled fill (snd p)))
                          (columns df) |}.
Proof.
  unfold fillna.
  destruct (fillna_columns fill (columns df)) as [cols|e] eqn:E;
    cbn [bind]; [|discriminate].
  intros [= <-]. rewrite (fillna_columns_ok _ _ E). reflexivity.
Qed.

Lemma fillna_labels fill df df' :
  fillna fill df = Ok df' -> labels df' = labels df.
Proof.
  intros H. rewrite (fillna_ok _ _ H).
  unfold labels. simpl. rewrite map_map. reflexivity.
Qed.

Lemma fillna_no_missing fill df df' :
  fillna fill df = Ok df' -> no_missing df'.
Proof.
  intros H. rewrite (fillna_ok _ _ H).
  unfold no_missing. simpl. apply Forall_map, Forall_forall.
  intros p _. apply filled_no_null.
Qed.

Lemma only_changes_refl c st : only_changes c st st.
Proof. repeat split. Qed.

Lemma only_changes_trans c st1 st2 st3 :
  only_changes c st1 st2 -> only_changes c st2 st3 ->
  only_changes c st1 st3.
Proof.
  intros (N1 & O1 & L1) (N2 & O2 & L2). split; [congruence|]. split.
  - intros x Hx. rewrite O2, O1 by exact Hx. reflexivity.
  - congruence.
Qed.

End FrameFacts.

Section CleanerFacts.
Import Py Pandas Frame DataCleaner.

Lemma strip_column_changes c col st r st' :
  strip_column c col st = (r, st') -> only_changes c st st'.
Proof.
  unfold strip_column, mbind, read, lift, write.
  destruct (getitem (cell st c) col) as [s|e] eqn:G.
  - intros [= _ <-]. split; [reflexivity|]. split.
    + intros x Hx. simpl. apply Nat.eqb_neq in Hx. rewrite Hx. reflexivity.
    + simpl. rewrite Nat.eqb_refl. eapply setitem_labels. exact G.
  - intros [= _ <-]. apply only_changes_refl.
Qed.

Lemma for_each_changes c cols :
  forall st r st',
    for_each (strip_column c) cols st = (r, st') -> only_changes c st st'.
Proof.
  induction cols as [|col rest IH]; intros st r st'; cbn [for_each].
  - intros [= _ <-]. apply only_changes_refl.
  - unfold mbind at 1.
    destruct (strip_column c col st) as [[[]|e] st1] eqn:E.
    + intros H. eapply only_changes_trans.
      * eapply strip_column_changes. exact E.
      * eapply IH. exact H.
    + intros [= _ <-]. eapply strip_column_changes. exact E.
Qed.

(** What [clean_data] does to the interpreter state. *)
Lemma clean_data_effect df st r st' :
  clean_data df st = (r, st') ->
  (forall x, allocated x st -> cell st' x = cell st x)
  /\ forall out,
       r = Ok out ->
       ~ allocated out st
       /\ labels (cell st' out)
          = map SnakeCase.to_snake_case (labels (cell st df))
       /\ no_missing (cell st' out).
Proof.
  unfold clean_data, copy.
  unfold mbind at 1 2. unfold read at 1. unfold new at 1. cbn [alloc].
  set (n := next_ref st).
  set (st1 := {| next_ref := S n;
                 cell := fun r0 => if Nat.eqb r0 n then cell st df
                                   else cell st r0 |}).
  unfold mbind at 1. unfold read at 1.
  unfold mbind at 1. unfold write at 1.
  assert (Hn : cell st1 n = cell st df)
    by (simpl; rewrite Nat.eqb_refl; reflexivity).
  rewrite Hn.
  set (f2 := set_labels (cell st df)
               (map SnakeCase.to_snake_case (labels (cell st df)))).
  set (st2 := update n f2 st1).
  unfold mbind at 1. unfold read at 1.
  assert (H2 : cell st2 n = f2)
    by (simpl; rewrite Nat.eqb_refl; reflexivity).
  rewrite H2.
  unfold mbind at 1.
  destruct (for_each (strip_column n) (object_labels f2) st2)
    as [[[]|e] st3] eqn:E;
    pose proof (for_each_changes _ _ _ E) as (N3 & O3 & L3).
  - assert (Hold : forall x, allocated x st ->
                             cell st3 x = cell st x).
    { intros x Hx. unfold allocated in Hx. fold n in Hx.
      assert (Hne : x <> n) by lia.
      rewrite O3 by exact Hne. simpl.
      apply Nat.eqb_neq in Hne. rewrite Hne. reflexivity. }
    unfold mbind, read, lift, new. cbn [alloc].
    destruct (fillna "" (cell st3 n)) as [filled_df|e] eqn:F.
    + intros [= <- <-]. split.
      * intros x Hx. simpl. rewrite N3. simpl.
        unfold allocated in Hx. fold n in Hx.
        destruct (Nat.eqb x (S n)) eqn:Ex;
          [apply Nat.eqb_eq in Ex; lia|].
        apply Hold. exact Hx.
      * intros out [= <-]. split; [|split].
        -- unfold allocated. rewrite N3. simpl. fold n. lia.
        -- simpl. rewrite Nat.eqb_refl.
           rewrite (fillna_labels _ _ F), L3, H2.
           apply set_labels_labels.
        -- simpl. rewrite Nat.eqb_refl.
           eapply fillna_no_missing. exact F.
    + intros [= <- <-]. split; [exact Hold|].
      intros out H. discriminate H.
  - intros [= <- <-]. split.
    + intros x Hx. unfold allocated in Hx. fold n in Hx.
      assert (Hne : x <> n) by lia.
      rewrite O3 by exact Hne. simpl.
      apply Nat.eqb_neq in Hne. rewrite Hne. reflexivity.
    + intros out H. discriminate H.
Qed.

End CleanerFacts.

(** C7, as the code has it. [clean_data] works on a copy: whatever it
    returns or raises, every table that existed before the call,
    the argument among them, is left as it was; the table it returns is a
    new one, with the normalized headers of the argument and no missing
    value. *)
Theorem clean_data_leaves_argument_unchanged
        (df : Pandas.ref) (st st' : Pandas.store)
        (r : Py.result Pandas.ref) :
  Pandas.allocated df st ->
  DataCleaner.clean_data df st = (r, st') ->
  Pandas.cell st' df = Pandas.cell st df
  /\ (forall x, Pandas.allocated x st -> Pandas.cell st' x = Pandas.cell st x)
  /\ forall out,
       r = Py.Ok out ->
       out <> df
       /\ Pandas.labels (Pandas.cell st' out)
          = map SnakeCase.to_snake_case (Pandas.labels (Pandas.cell st df))
       /\ Frame.no_missing (Pandas.cell st' out).
Proof.
  intros Hdf H. destruct (clean_data_effect _ _ H) as [Hold Hnew].
  split; [apply Hold; exact Hdf|]. split; [exact Hold|].
  intros out Hout. destruct (Hnew out Hout) as (Hfresh & Hl & Hm).
  split; [|split; assumption].
  intros ->. apply Hfresh. exact Hdf.
Qed.

Lemma clean_data_leaves_argument_unchanged_witness :
  Pandas.allocated 0%nat (Fixtures.store_of Fixtures.leads)
  /\ exists r st',
       DataCleaner.clean_data 0%nat (Fixtures.store_of Fixtures.leads)
       = (r, st')
       /\ Pandas.cell st' 0%nat = Fixtures.leads
       /\ (forall x,
              Pandas.allocated x (Fixtures.store_of Fixtures.leads) ->
              Pandas.cell st' x
              = Pandas.cell (Fixtures.store_of Fixtures.leads) x)
       /\ forall out,
            r = Py.Ok out ->
            out <> 0%nat
            /\ Pandas.labels (Pandas.cell st' out)
               = map SnakeCase.to_snake_case
                     (Pandas.labels Fixtures.leads)
            /\ Frame.no_missing (Pandas.cell st' out).
Proof.
  assert (H : Pandas.allocated 0%nat (Fixtures.store_of Fixtures.leads))
    by (unfold Pandas.allocated; simpl; lia).
  split; [exact H|].
  destruct (DataCleaner.clean_data 0%nat (Fixtures.store_of Fixtures.leads))
    as [r st'] eqn:E.
  exists r, st'. split; [reflexivity|].
  exact (clean_data_leaves_argument_unchanged H E).
Defined.

(** The claim C7 fails on the code: after [clean_data] has returned for
    the table with the columns "Lead Source" and "Sale Price", the
    caller's table still has these headers, its untrimmed strings and its
    missing values; the normalized headers "lead_source" and "sale_price",
    the trimmed strings and the empty strings are in the new table that
    was returned. *)
Lemma clean_data_does_not_mutate_argument :
  exists out st',
    DataCleaner.clean_data 0%nat (Fixtures.store_of Fixtures.leads)
    = (Py.Ok out, st')
    /\ Pandas.cell st' 0%nat = Fixtures.leads
    /\ Pandas.labels (Pandas.cell st' 0%nat)
       = ["Lead Source"; "Sale Price"]%string
    /\ Pandas.labels (Pandas.cell st' 0%nat)
       <> map SnakeCase.to_snake_case (Pandas.labels Fixtures.leads)
    /\ Pandas.labels (Pandas.cell st' out)
       = ["lead_source"; "sale_price"]%string
    /\ map (fun p => Pandas.s_values (snd p))
           (Pandas.columns (Pandas.cell st' out))
       = [[Py.VStr "Walk In"; Py.VStr ""; Py.VStr "Auto Trader"];
          [Py.VFloat 1; Py.VStr ""; Py.VFloat 3]].
Proof.
  eexists. eexists. split; [reflexivity|].
  split; [reflexivity|]. split; [reflexivity|].
  split; [vm_compute; discriminate|].
  split; vm_compute; reflexivity.
Qed.

(** ** The result of the value normalizer *)

Section NormalizeLeadSourcesFacts.
Import Py Pandas DataCleaner.

Lemma find_lead_source_col_named cols col :
  find_lead_source_col cols = Some col ->
  In col cols /\ col <> ""%string.
Proof.
  unfold find_lead_source_col. intros H.
  apply find_some in H. destruct H as [Hin Hname].
  split; [exact Hin|]. intros ->. vm_compute in Hname. discriminate Hname.
Qed.

End NormalizeLeadSourcesFacts.

(** C9. [normalize_lead_sources] hands back two shapes: when no column
    name is recognised as the lead source, the table alone, with nothing
    changed and no record made; when one is recognised, whatever it
    returns is the pair of the table and the records, and it does return
    this pair on a table in which that name labels one column and that
    column holds no string. *)
Theorem normalize_lead_sources_result_shape
        (lib : FuzzLib) (df : Pandas.ref) (st : Pandas.store) :
  (DataCleaner.find_lead_source_col (Pandas.labels (Pandas.cell st df))
   = None ->
   DataCleaner.normalize_lead_sources lib df st
   = (Py.Ok (DataCleaner.JustFrame df), st))
  /\ (forall col,
         DataCleaner.find_lead_source_col
           (Pandas.labels (Pandas.cell st df)) = Some col ->
         (forall out st',
             DataCleaner.normalize_lead_sources lib df st
             = (Py.Ok out, st') ->
             exists meta, out = DataCleaner.FrameAndMeta df meta)
         /\ (forall s,
                Pandas.count_label col (Pandas.cell st df) = 1%nat ->
                Pandas.assoc col (Pandas.columns (Pandas.cell st df))
                = Some s ->
                Forall (fun v => Py.is_str v = false) (Pandas.s_values s) ->
                exists st',
                  DataCleaner.normalize_lead_sources lib df st
                  = (Py.Ok (DataCleaner.FrameAndMeta df []), st'))).
Proof.
  split.
  - intros H. unfold DataCleaner.normalize_lead_sources, Pandas.mbind,
      Pandas.read. rewrite H. reflexivity.
  - intros col H.
    destruct (find_lead_source_col_named _ H) as [Hin Hne].
    assert (Hshape :
      DataCleaner.normalize_lead_sources lib df st
      = Pandas.mbind
          (Pandas.lift
             (DataCleaner.normalized_column lib (Pandas.cell st df) col))
          (fun r =>
             let '(col', normalization_meta) := r in
             Pandas.mbind
               match col' with
               | Some s =>
                   Pandas.write df (Pandas.setitem (Pandas.cell st df) col s)
               | None => Pandas.ret tt
               end
               (fun _ =>
                  Pandas.ret (DataCleaner.FrameAndMeta df
                                                       normalization_meta)))
          st).
    { unfold DataCleaner.normalize_lead_sources.
      unfold Pandas.mbind at 1. unfold Pandas.read at 1. rewrite H.
      destruct col as [|c col]; [congruence | reflexivity]. }
    rewrite Hshape. unfold Pandas.mbind at 1. unfold Pandas.lift.
    split.
    + intros out st'.
      destruct (DataCleaner.normalized_column lib (Pandas.cell st df) col)
        as [[[s|] meta]|e]; cbn; intros E; inversion E; eauto.
    + intros s Hcount Hs Hvals. unfold DataCleaner.normalized_column.
      rewrite Hcount. cbn [Nat.ltb Nat.leb]. rewrite Hs.
      unfold DataCleaner.normalize_values.
      rewrite (@apply_normalize_value_not_str lib _ _ Hvals []).
      cbn. unfold Pandas.ret. eauto.
Qed.

Lemma normalize_lead_sources_result_shape_witness :
  (DataCleaner.find_lead_source_col (Pandas.labels Fixtures.one_column)
   = None
   /\ DataCleaner.normalize_lead_sources RapidFuzz.lib 0%nat
        (Fixtures.store_of Fixtures.one_column)
      = (Py.Ok (DataCleaner.JustFrame 0%nat),
         Fixtures.store_of Fixtures.one_column))
  /\ (DataCleaner.find_lead_source_col (Pandas.labels Fixtures.blank_leads)
      = Some "Lead Source"%string
      /\ Pandas.count_label "Lead Source"%string Fixtures.blank_leads
         = 1%nat
      /\ exists st',
           DataCleaner.normalize_lead_sources RapidFuzz.lib 0%nat
             (Fixtures.store_of Fixtures.blank_leads)
           = (Py.Ok (DataCleaner.FrameAndMeta 0%nat []), st')).
Proof.
  split.
  - assert (H : DataCleaner.find_lead_source_col
                  (Pandas.labels Fixtures.one_column) = None)
      by reflexivity.
    split; [exact H|].
    exact (proj1 (normalize_lead_sources_result_shape RapidFuzz.lib 0%nat
                    (Fixtures.store_of Fixtures.one_column)) H).
  - assert (H : DataCleaner.find_lead_source_col
                  (Pandas.labels Fixtures.blank_leads)
                = Some "Lead Source"%string) by reflexivity.
    assert (Hc : Pandas.count_label "Lead Source"%string
                   Fixtures.blank_leads = 1%nat) by reflexivity.
    split; [exact H|]. split; [exact Hc|].
    refine (proj2 (proj2 (normalize_lead_sources_result_shape RapidFuzz.lib
                            0%nat (Fixtures.store_of Fixtures.blank_leads))
                         _ H) _ Hc eq_refl _).
    repeat constructor.
Defined.

(* ===================================================================== *)
(** * Further properties *)
(* ===================================================================== *)

(** ** Header normalization *)

Section SnakeCaseMore.
Import PyStr Shape SnakeCase More.

Lemma of_to_string (l : chars) : of_string (to_string l) = l.
Proof. apply list_ascii_of_string_of_list_ascii. Qed.

Lemma to_of_string (s : string) : to_string (of_string s) = s.
Proof. apply string_of_list_ascii_of_string. Qed.

Lemma lstrip_all (p : ascii -> bool) (s : chars) :
  Forall (fun c => p c = true) s -> lstrip p s = [].
Proof.
  induction 1 as [|c t Hc _ IH]; simpl; [reflexivity|].
  rewrite Hc. exact IH.
Qed.

Lemma rstrip_nil (p : ascii -> bool) : rstrip p [] = [].
Proof. reflexivity. Qed.

Lemma sub_underscores_all s :
  Forall (fun c => is_us c = true) s ->
  sub_underscores s = [] \/ sub_underscores s = [underscore].
Proof.
  intros H. destruct H as [|c t Hc Ht]; simp sub_underscores; [left; reflexivity|].
  rewrite Hc. simpl. rewrite (lstrip_all _ Ht). simp sub_underscores.
  right. reflexivity.
Qed.

Lemma sub_non_alnum_all s :
  Forall (fun c => is_alnum c = false) s ->
  Forall (fun c => is_us c = true) (sub_non_alnum s).
Proof.
  intros H. unfold sub_non_alnum. apply Forall_map.
  revert H. apply Forall_impl. intros c ->. reflexivity.
Qed.

Lemma not_alnum_not_upper c : is_alnum c = false -> is_upper c = false.
Proof.
  unfold is_alnum. destruct (is_upper c); [|reflexivity].
  rewrite orb_true_r. simpl. discriminate.
Qed.

End SnakeCaseMore.

(** X1. The strings [to_snake_case] leaves unchanged are exactly those
    made of lower-case letters, digits and single underscores with no
    underscore at either end, and every string it returns is one of
    them. *)
Theorem to_snake_case_fixed_points (s : string) :
  (SnakeCase.to_snake_case s = s <-> More.snake_shape s)
  /\ More.snake_shape (SnakeCase.to_snake_case s).
Proof.
  assert (Hout : forall x, More.snake_shape (SnakeCase.to_snake_case x)).
  { intros x. unfold More.snake_shape, SnakeCase.to_snake_case.
    rewrite of_to_string. apply to_snake_case_chars_shape. }
  split; [|apply Hout]. split.
  - intros H. rewrite <- H. apply Hout.
  - intros (Ha & Hs & Hst). unfold SnakeCase.to_snake_case.
    rewrite (to_snake_case_chars_fixed Ha Hs Hst). apply to_of_string.
Qed.

(** X2. A header without any letter or digit is normalized to the empty
    string. *)
Theorem to_snake_case_without_alnum (s : string) :
  Forall (fun c => PyStr.is_alnum c = false) (PyStr.of_string s) ->
  SnakeCase.to_snake_case s = ""%string.
Proof.
  intros H. unfold SnakeCase.to_snake_case, SnakeCase.to_snake_case_chars.
  cbv zeta.
  assert (Hu : Shape.no_upper (PyStr.of_string s)).
  { revert H. apply Forall_impl. intros c. apply not_alnum_not_upper. }
  rewrite (sub_word_start_fixed Hu), (sub_case_boundary_fixed Hu).
  destruct (sub_underscores_all (sub_non_alnum_all H)) as [-> | ->];
    reflexivity.
Qed.

Lemma to_snake_case_without_alnum_witness :
  Forall (fun c => PyStr.is_alnum c = false) (PyStr.of_string "-- $ --")
  /\ SnakeCase.to_snake_case "-- $ --" = ""%string.
Proof.
  assert (H : Forall (fun c => PyStr.is_alnum c = false)
                     (PyStr.of_string "-- $ --"))
    by (repeat constructor).
  split; [exact H|]. exact (to_snake_case_without_alnum "-- $ --" H).
Defined.

(** ** Delimiter sniffing *)

Section FirstMaximum.
Variable A : Type.
Variable f : A -> nat.

Let pick (best d : A) : A := if Nat.ltb (f best) (f d) then d else best.

(** Scanning for the first element of largest measure, starting from
    [b]. *)
Lemma fold_pick_first_maximum (l : list A) :
  forall b,
    let r := fold_left pick l b in
    (f b <= f r)%nat
    /\ (forall x, In x l -> (f x <= f r)%nat)
    /\ (r = b
        \/ exists pre post,
             l = (pre ++ r :: post)%list
             /\ (f b < f r)%nat
             /\ forall x, In x pre -> (f x < f r)%nat).
Proof.
  induction l as [|x l IH]; intros b; cbv zeta.
  - simpl. split; [lia|]. split; [intros x []|]. left. reflexivity.
  - cbn [fold_left].
    destruct (IH (pick b x)) as (H1 & H2 & H3).
    remember (fold_left pick l (pick b x)) as r eqn:Er. clear Er IH.
    assert (Hb : (f b <= f (pick b x))%nat /\ (f x <= f (pick b x))%nat).
    { unfold pick. destruct (Nat.ltb (f b) (f x)) eqn:E;
        [apply Nat.ltb_lt in E | apply Nat.ltb_ge in E]; lia. }
    destruct Hb as [Hb Hx].
    split; [lia|]. split.
    + intros y [<- | Hy]; [lia | apply H2; exact Hy].
    + destruct H3 as [Hr | (pre & post & Hl & Hlt & Hpre)].
      * unfold pick in Hr. destruct (Nat.ltb (f b) (f x)) eqn:E.
        -- apply Nat.ltb_lt in E. right. exists [], l. subst r.
           split; [reflexivity|]. split; [exact E|].
           intros y [].
        -- left. exact Hr.
      * right. exists (x :: pre), post. subst l.
        split; [reflexivity|]. split; [lia|].
        intros y [<- | Hy]; [lia | apply Hpre; exact Hy].
Qed.

End FirstMaximum.

(** X3. The delimiter the loader picks is one of comma, semicolon, tab
    and bar; none of the four occurs more often in the sample, and each
    of those listed before it occurs strictly less often: ties go to the
    earliest in that order, so a sample without any delimiter gives the
    comma. *)
Theorem sniff_delimiter_first_most_frequent (sample : string) :
  let d := DataLoader.sniff_delimiter sample in
  let count := fun c => DataLoader.count_char c sample in
  exists pre post,
    DataLoader.delimiters = (pre ++ d :: post)%list
    /\ (forall x, In x pre -> (count x < count d)%nat)
    /\ (forall x, In x post -> (count x <= count d)%nat).
Proof.
  cbv zeta.
  destruct (fold_pick_first_maximum
              (fun c => DataLoader.count_char c sample)
              DataLoader.delimiters ","%char) as (_ & Hall & Hfirst).
  change (fold_left _ DataLoader.delimiters ","%char)
    with (DataLoader.sniff_delimiter sample) in Hall, Hfirst.
  destruct Hfirst as [Hr | (pre & post & Hl & _ & Hpre)].
  - exists [], (tl DataLoader.delimiters). rewrite Hr.
    split; [reflexivity|]. split; [intros x []|].
    intros x Hx. rewrite <- Hr. apply Hall. right. exact Hx.
  - exists pre, post. split; [exact Hl|]. split; [exact Hpre|].
    intros x Hx. apply Hall. rewrite Hl. apply in_or_app. right. right.
    exact Hx.
Qed.

(** ** The alias lookup *)

Section RegistryMore.
Import Py SchemaConfig Registry More.

Lemma claims_dec (e : entry) (a : string) : {claims e a} + {~ claims e a}.
Proof.
  unfold claims. destruct (string_dec a (name e)) as [H | H]; [left; auto|].
  destruct (in_dec string_dec a (aliases e)) as [H' | H']; [left; auto|].
  right. intros [? | ?]; contradiction.
Qed.

Lemma build_snoc (cfg : list entry) (e : entry) :
  build_alias_to_canonical (cfg ++ [e])
  = add_entry (build_alias_to_canonical cfg) e.
Proof. unfold build_alias_to_canonical. apply fold_left_app. Qed.

(** The lookup of a string: absent when nobody claims it, the name of the
    last claimant otherwise. *)
Lemma build_lookup_cases (cfg : list entry) (a : string) :
  (dict_get a (build_alias_to_canonical cfg) = None
   /\ forall e, In e cfg -> ~ claims e a)
  \/ exists before e after,
       cfg = (before ++ e :: after)%list
       /\ claims e a
       /\ (forall e', In e' after -> ~ claims e' a)
       /\ dict_get a (build_alias_to_canonical cfg) = Some (name e).
Proof.
  induction cfg as [|e cfg IH] using rev_ind.
  - left. split; [reflexivity | intros e []].
  - rewrite build_snoc. destruct (claims_dec e a) as [Hc | Hc].
    + right. exists cfg, e, []. split; [reflexivity|]. split; [exact Hc|].
      split; [intros e' []|]. apply add_entry_claimed. exact Hc.
    + rewrite (add_entry_other _ Hc).
      destruct IH as [[Hn Hall] | (before & e0 & after & -> & Hc0 & Haft & Hg)].
      * left. split; [exact Hn|]. intros e' Hin.
        apply in_app_or in Hin. destruct Hin as [Hin | [<- | []]];
          [apply Hall; exact Hin | exact Hc].
      * right. exists before, e0, (after ++ [e])%list.
        split; [rewrite <- app_assoc; reflexivity|]. split; [exact Hc0|].
        split; [|exact Hg].
        intros e' Hin. apply in_app_or in Hin.
        destruct Hin as [Hin | [<- | []]]; [apply Haft; exact Hin | exact Hc].
Qed.

End RegistryMore.

(** X4. The lookup holds exactly the strings the vocabulary claims: a
    string claimed by no entry is absent, and a string that is present
    resolves to the name of an entry that claims it. *)
Theorem build_alias_to_canonical_sound_complete
        (cfg : list SchemaConfig.entry) (a : string) :
  (Py.dict_get a (SchemaConfig.build_alias_to_canonical cfg) = None
   <-> forall e, In e cfg -> ~ Registry.claims e a)
  /\ (forall c,
         Py.dict_get a (SchemaConfig.build_alias_to_canonical cfg) = Some c ->
         exists e, In e cfg /\ Registry.claims e a /\ SchemaConfig.name e = c).
Proof.
  destruct (build_lookup_cases cfg a)
    as [[Hn Hall] | (before & e & after & -> & Hc & Haft & Hg)].
  - split; [split; [intros _; exact Hall | intros _; exact Hn]|].
    intros c H. rewrite Hn in H. discriminate H.
  - assert (Hin : In e (before ++ e :: after))
      by (apply in_or_app; right; left; reflexivity).
    split.
    + split; [intros H; rewrite Hg in H; discriminate H|].
      intros H. exfalso. exact (H e Hin Hc).
    + intros c H. rewrite Hg in H. injection H as <-. eauto.
Qed.

(** X5. Over a vocabulary in which no string is claimed by two different
    canonical names, every alias resolves to the name of its own entry
    and every canonical name to itself. *)
Theorem build_alias_to_canonical_exact
        (cfg : list SchemaConfig.entry) (e : SchemaConfig.entry)
        (a : string) :
  More.unambiguous cfg ->
  In e cfg ->
  Registry.claims e a ->
  Py.dict_get a (SchemaConfig.build_alias_to_canonical cfg)
  = Some (SchemaConfig.name e)
  /\ Py.dict_get (SchemaConfig.name e)
       (SchemaConfig.build_alias_to_canonical cfg)
     = Some (SchemaConfig.name e).
Proof.
  intros Hun Hin Hc.
  assert (G : forall b, Registry.claims e b ->
                Py.dict_get b (SchemaConfig.build_alias_to_canonical cfg)
                = Some (SchemaConfig.name e)).
  { intros b Hb. destruct (build_lookup_cases cfg b)
      as [[_ Hall] | (before & e0 & after & Hcfg & Hc0 & _ & Hg)].
    - exfalso. exact (Hall e Hin Hb).
    - rewrite Hg. f_equal.
      destruct (string_dec (SchemaConfig.name e0) (SchemaConfig.name e))
        as [E | E]; [exact E|].
      exfalso. apply (Hun b). exists e0, e.
      split; [rewrite Hcfg; apply in_or_app; right; left; reflexivity|].
      auto. }
  split; [apply G; exact Hc|]. apply G. left. reflexivity.
Qed.

Lemma expected_columns_unambiguous :
  More.unambiguous SchemaConfig.EXPECTED_COLUMNS.
Proof.
  intros a (e1 & e2 & H1 & H2 & Hne & C1 & C2).
  unfold Registry.claims in C1, C2.
  simpl in H1, H2.
  destruct H1 as [<- | [<- | [<- | []]]];
    destruct H2 as [<- | [<- | [<- | []]]];
    simpl in *; try congruence;
    repeat match goal with
           | H : _ \/ _ |- _ => destruct H
           | H : False |- _ => destruct H
           end; subst; try discriminate; try congruence.
Defined.

Lemma build_alias_to_canonical_exact_witness :
  More.unambiguous SchemaConfig.EXPECTED_COLUMNS
  /\ Py.dict_get "final_price"%string
       (SchemaConfig.build_alias_to_canonical SchemaConfig.EXPECTED_COLUMNS)
     = Some "SellingPrice"%string
  /\ Py.dict_get "SellingPrice"%string
       (SchemaConfig.build_alias_to_canonical SchemaConfig.EXPECTED_COLUMNS)
     = Some "SellingPrice"%string.
Proof.
  split; [exact expected_columns_unambiguous|].
  refine (@build_alias_to_canonical_exact
            SchemaConfig.EXPECTED_COLUMNS
            {| SchemaConfig.name := "SellingPrice"%string;
               SchemaConfig.aliases :=
                 ["price"; "amount_sold"; "sale_price";
                  "final_price"]%string |}
            "final_price"%string expected_columns_unambiguous _ _).
  - right. right. left. reflexivity.
  - right. simpl. auto.
Defined.

(** ** The scorer handed to the best match *)

(** X6. [best_match_score] called with the repository's [token_ratio] as
    scorer never returns a pair, whatever the query and the choices: with
    a choice, the call of the scorer with the keyword [score_cutoff] is
    refused, and with no choice the result [None] does not unpack; both
    raise [TypeError]. *)
Theorem token_ratio_refused_as_scorer (lib : FuzzLib) (query : string) :
  ColumnMatcher.call_best_match_score query []
    (ColumnMatcher.token_ratio_function lib)
  = Py.Raise (Py.TypeError "cannot unpack non-iterable NoneType object")
  /\ forall c rest,
       ColumnMatcher.call_best_match_score query (c :: rest)
         (ColumnMatcher.token_ratio_function lib)
       = Py.Raise
           (Py.TypeError
              "token_ratio() got an unexpected keyword argument 'score_cutoff'").
Proof.
  split.
  - apply call_best_match_score_token_ratio.
  - intros c rest. apply call_best_match_score_token_ratio.
Qed.

(** ** Promotion and errors in the loader *)

(** X12. The promotion loop of the loader keeps the shape of the table:
    when it returns, the column labels and the number of rows are those
    of its input, and every column that is not an integer column holding
    a missing value is still the same column. *)
Theorem promote_columns_keeps_other_columns
        (env : DataLoader.Env) (df df' : Pandas.frame)
        (cols : list string) :
  DataLoader.promote_columns env df cols = Py.Ok df' ->
  Pandas.labels df' = Pandas.labels df
  /\ Pandas.nrows df' = Pandas.nrows df
  /\ forall c s,
       Pandas.assoc c (Pandas.columns df) = Some s ->
       (Pandas.is_integer_dtype (Pandas.s_dtype s) && Pandas.has_null s)%bool
       = false ->
       Pandas.assoc c (Pandas.columns df') = Some s.
Proof. intros H. exact (promote_columns_keeps _ _ _ H). Qed.

Lemma promote_columns_keeps_other_columns_witness :
  exists df',
    DataLoader.promote_columns
      (Fixtures.file_env Fixtures.two_columns Fixtures.to_Int64)
      Fixtures.two_columns (Pandas.labels Fixtures.two_columns)
    = Py.Ok df'
    /\ Pandas.labels df' = ["price"; "qty"]%string
    /\ Pandas.nrows df' = 2%nat
    /\ Pandas.assoc "price"%string (Pandas.columns df')
       = Some Fixtures.price_column.
Proof.
  destruct (DataLoader.promote_columns
              (Fixtures.file_env Fixtures.two_columns Fixtures.to_Int64)
              Fixtures.two_columns (Pandas.labels Fixtures.two_columns))
    as [df'|e] eqn:E; [|vm_compute in E; discriminate E].
  exists df'. split; [reflexivity|].
  destruct (promote_columns_keeps_other_columns _ _ _ E) as (L & N & K).
  split; [exact L|]. split; [exact N|].
  apply K; reflexivity.
Defined.

(** X13. [load_csv_file] never lets a parser error out: a missing file is
    reported as [FileNotFoundError] whatever the collaborators would do,
    a [ParserError] raised inside is turned into [ValueError] with the
    message "Invalid CSV format: ...", and every exception that leaves
    the function is of another kind. *)
Theorem load_csv_file_never_parser_error
        (lib : FuzzLib) (env : DataLoader.Env) (file_path : string) :
  (forall msg,
      DataLoader.load_csv_file lib env file_path
      <> Py.Raise (Py.ParserError msg))
  /\ (DataLoader.path_exists env file_path = false ->
      DataLoader.load_csv_file lib env file_path
      = Py.Raise (Py.FileNotFoundError ("File not found: " ++ file_path)))
  /\ (forall msg,
         DataLoader.path_exists env file_path = true ->
         DataLoader.load_body lib env file_path
         = Py.Raise (Py.ParserError msg) ->
         DataLoader.load_csv_file lib env file_path
         = Py.Raise (Py.ValueError ("Invalid CSV format: " ++ msg))).
Proof.
  unfold DataLoader.load_csv_file. split; [|split].
  - intros msg.
    destruct (DataLoader.path_exists env file_path); cbn [negb];
      [|discriminate].
    destruct (DataLoader.load_body lib env file_path) as [x|e];
      cbn [Py.try_except]; [discriminate|].
    destruct e; discriminate.
  - intros ->. reflexivity.
  - intros msg -> ->. reflexivity.
Qed.

Lemma load_csv_file_never_parser_error_witness :
  let env :=
    {| DataLoader.path_exists := fun _ => true;
       DataLoader.read_head := fun _ => Py.Ok "a,b"%string;
       DataLoader.read_csv_sample :=
         fun _ _ => Py.Raise (Py.ParserError "Error tokenizing data");
       DataLoader.astype_str := fun _ => ""%string;
       DataLoader.analyze_column_semantics := fun _ _ => Py.Ok "int64"%string;
       DataLoader.read_csv_pyarrow := fun _ _ _ _ => Py.Ok Fixtures.two_columns;
       DataLoader.read_csv_plain := fun _ _ _ _ => Py.Ok Fixtures.two_columns;
       DataLoader.astype_Int64 := Fixtures.to_Int64;
       DataLoader.astype_float64 := Fixtures.to_float64 |} in
  DataLoader.load_csv_file RapidFuzz.lib env "sales.csv"
  = Py.Raise (Py.ValueError "Invalid CSV format: Error tokenizing data").
Proof.
  cbv zeta.
  apply (proj2 (proj2 (load_csv_file_never_parser_error RapidFuzz.lib _
                         "sales.csv"))); reflexivity.
Defined.

(** ** The basic cleaner, column by column *)

Section CleanerMore.
Import Py Pandas Frame DataCleaner Cleaned.

(** The strip of the loop body on one column. *)
Let maybe_strip (s : series) : series :=
  if is_object_dtype (s_dtype s) then str_strip s else s.

(** Replacing the column of a label that occurs once. *)
Lemma set_assoc_map (col : string) (s : series) (l : list (string * series)) :
  In col (map fst l) ->
  NoDup (map fst l) ->
  set_assoc col s l
  = map (fun p => if String.eqb (fst p) col then (fst p, s) else p) l.
Proof.
  induction l as [|[k s'] l IH]; simpl; [intros []|].
  intros Hin Hnd. inversion Hnd as [|? ? Hk Hl]; subst.
  destruct (String.eqb k col) eqn:E.
  - apply String.eqb_eq in E. subst k. f_equal.
    clear IH Hin Hnd Hl. induction l as [|[k0 s0] l IHl]; [reflexivity|].
    simpl. destruct (String.eqb k0 col) eqn:E0.
    + apply String.eqb_eq in E0. subst k0. exfalso. apply Hk. left.
      reflexivity.
    + f_equal. apply IHl. intros H. apply Hk. right. exact H.
  - f_equal. apply IH; [|exact Hl].
    destruct Hin as [-> | Hin]; [|exact Hin].
    rewrite String.eqb_refl in E. discriminate E.
Qed.

(** The columns once the labels in [done] have been through the loop. *)
Let stripped (done : list string) (l : list (string * series))
  : list (string * series) :=
  map (fun p => if existsb (String.eqb (fst p)) done
                then (fst p, maybe_strip (snd p)) else p) l.

Lemma stripped_labels done l : map fst (stripped done l) = map fst l.
Proof.
  unfold stripped. rewrite map_map. apply map_ext.
  intros p. destruct (existsb _ done); reflexivity.
Qed.

Lemma stripped_nil l : stripped [] l = l.
Proof. unfold stripped. simpl. apply map_id. Qed.

(** One more label through the loop. *)
Lemma stripped_step col done l s :
  NoDup (map fst l) ->
  ~ In col done ->
  assoc col (stripped done l) = Some s ->
  map (fun p => if String.eqb (fst p) col then (fst p, maybe_strip s) else p)
      (stripped done l)
  = stripped (done ++ [col]) l.
Proof.
  intros Hnd Hdone Hs. unfold stripped in *. rewrite map_map.
  apply map_ext_in. intros [k s0] Hin. cbn [fst snd].
  rewrite existsb_app. cbn [existsb]. rewrite orb_false_r.
  destruct (existsb (String.eqb k) done) eqn:Ed; cbn [fst snd].
  - destruct (String.eqb k col) eqn:E; [|reflexivity].
    apply String.eqb_eq in E. subst k. exfalso. apply Hdone.
    apply existsb_exists in Ed. destruct Ed as (x & Hx & Ex).
    apply String.eqb_eq in Ex. subst x. exact Hx.
  - destruct (String.eqb k col) eqn:E; cbn [orb]; [|reflexivity].
    apply String.eqb_eq in E. subst k. f_equal. f_equal.
    apply assoc_in_map in Hs. apply in_map_iff in Hs.
    destruct Hs as ([k1 s1] & Heq & Hin1). cbn [fst snd] in Heq.
    destruct (existsb (String.eqb k1) done) eqn:Ed1; cbn [fst snd] in Heq.
    + injection Heq as -> _. congruence.
    + injection Heq as -> ->.
      pose proof (in_nodup_assoc _ _ _ Hnd Hin) as A0.
      pose proof (in_nodup_assoc _ _ _ Hnd Hin1) as A1.
      congruence.
Qed.

(** The loop over labels that occur once each. *)
Lemma for_each_strip c todo :
  forall done st l n,
    columns (cell st c) = stripped done l ->
    nrows (cell st c) = n ->
    NoDup (map fst l) ->
    NoDup (done ++ todo) ->
    incl todo (map fst l) ->
    exists st',
      for_each (strip_column c) todo st = (Ok tt, st')
      /\ columns (cell st' c) = stripped (done ++ todo) l
      /\ nrows (cell st' c) = n
      /\ only_changes c st st'.
Proof.
  induction todo as [|col rest IH]; intros done st l n Hc Hn Hnd Hdt Hincl.
  - exists st. cbn [for_each]. rewrite app_nil_r.
    split; [reflexivity|]. split; [exact Hc|]. split; [exact Hn|].
    apply only_changes_refl.
  - cbn [for_each]. unfold mbind at 1.
    assert (Hl : labels (cell st c) = map fst l)
      by (unfold labels; rewrite Hc; apply stripped_labels).
    assert (Hin : In col (labels (cell st c)))
      by (rewrite Hl; apply Hincl; left; reflexivity).
    assert (Hnd' : NoDup (labels (cell st c))) by (rewrite Hl; exact Hnd).
    destruct (@getitem_nodup _ _ Hnd' Hin) as (s & Hs & Hg).
    unfold strip_column at 1, mbind, read, lift, write. rewrite Hg.
    fold (maybe_strip s).
    assert (Hcol : ~ In col done).
    { intros H. apply NoDup_remove_2 in Hdt. apply Hdt.
      apply in_or_app. left. exact H. }
    set (st1 := update c (setitem (cell st c) col (maybe_strip s)) st).
    assert (Hc1 : columns (cell st1 c) = stripped (done ++ [col]) l).
    { unfold st1. simpl. rewrite Nat.eqb_refl. simpl.
      rewrite set_assoc_map.
      - rewrite Hc. rewrite Hc in Hs. apply stripped_step; assumption.
      - exact Hin.
      - exact Hnd'. }
    assert (Hn1 : nrows (cell st1 c) = n)
      by (unfold st1; simpl; rewrite Nat.eqb_refl; exact Hn).
    destruct (IH (done ++ [col])%list st1 l n Hc1 Hn1 Hnd) as (st' & E & C & N & O).
    + rewrite <- app_assoc. exact Hdt.
    + intros x Hx. apply Hincl. right. exact Hx.
    + exists st'. rewrite <- app_assoc in C.
      split; [exact E|]. split; [exact C|]. split; [exact N|].
      eapply only_changes_trans; [|exact O].
      split; [reflexivity|]. split.
      * intros x Hx. unfold st1. simpl. apply Nat.eqb_neq in Hx.
        rewrite Hx. reflexivity.
      * unfold st1. simpl. rewrite Nat.eqb_refl.
        eapply setitem_labels. exact Hg.
Qed.

Lemma object_labels_incl df : incl (object_labels df) (labels df).
Proof.
  unfold object_labels, labels. intros k Hk.
  apply in_map_iff in Hk. destruct Hk as (p & <- & Hp).
  apply filter_In in Hp. apply in_map. exact (proj1 Hp).
Qed.

Lemma object_labels_nodup df :
  NoDup (labels df) -> NoDup (object_labels df).
Proof.
  unfold object_labels, labels.
  induction (columns df) as [|[k s] l IH]; simpl; [constructor|].
  intros Hnd. inversion Hnd as [|? ? Hk Hl]; subst.
  destruct (is_object_dtype (s_dtype s)); simpl; [|apply IH; exact Hl].
  constructor; [|apply IH; exact Hl].
  intros H. apply Hk. apply in_map_iff in H.
  destruct H as (p & <- & Hp). apply filter_In in Hp.
  apply in_map. exact (proj1 Hp).
Qed.

(** After the whole loop every column has been through [maybe_strip]. *)
Lemma stripped_object_labels l :
  NoDup (map fst l) ->
  stripped (map fst (filter (fun p => is_object_dtype (s_dtype (snd p))) l)) l
  = map (fun p => (fst p, maybe_strip (snd p))) l.
Proof.
  intros Hnd. unfold stripped. apply map_ext_in. intros [k s] Hin.
  cbn [fst snd].
  destruct (existsb (String.eqb k) _) eqn:E; [reflexivity|].
  unfold maybe_strip.
  destruct (is_object_dtype (s_dtype s)) eqn:Ho; [|reflexivity].
  exfalso.
  assert (Hex : existsb (String.eqb k)
                  (map fst (filter (fun p => is_object_dtype (s_dtype (snd p)))
                                   l)) = true).
  { apply existsb_exists. exists k. split; [|apply String.eqb_refl].
    change k with (fst (k, s)). apply in_map. apply filter_In.
    split; [exact Hin | exact Ho]. }
  congruence.
Qed.

Lemma set_labels_columns df (g : string -> string) :
  columns (set_labels df (map g (labels df)))
  = map (fun p => (g (fst p), snd p)) (columns df).
Proof.
  unfold labels, set_labels. simpl.
  induction (columns df) as [|[k s] l IH]; simpl; [reflexivity|].
  rewrite IH. reflexivity.
Qed.

(** The strip leaves the refusal of [fillna] as it was. *)
Lemma maybe_strip_refusal (s : series) :
  nullable_integer_with_missing (maybe_strip s)
  = nullable_integer_with_missing s.
Proof.
  unfold nullable_integer_with_missing, maybe_strip.
  destruct (s_dtype s) eqn:E; simpl; rewrite ?E; reflexivity.
Qed.

Lemma fillna_columns_all (g : string -> string) l :
  Forall (fun p => nullable_integer_with_missing (snd p) = false) l ->
  fillna_columns ""
    (map (fun p => (g (fst p), maybe_strip (snd p))) l)
  = Ok (map (fun p => (g (fst p), filled "" (maybe_strip (snd p)))) l).
Proof.
  induction 1 as [|[k s] l Hs _ IH]; [reflexivity|].
  cbn [map fillna_columns fst snd]. unfold series_fillna.
  fold (nullable_integer_with_missing (maybe_strip s)).
  rewrite maybe_strip_refusal. cbn [snd] in Hs. rewrite Hs.
  cbn [bind]. rewrite IH. reflexivity.
Qed.


(** [clean_data] on a table whose normalized headers are distinct: the
    copy gets the headers and goes through the strip, and the result is
    what [fillna] makes of it. *)
Lemma clean_data_columns df st :
  NoDup (snake_labels (cell st df)) ->
  exists st3,
    next_ref st3 = S (next_ref st)
    /\ (forall x, allocated x st -> cell st3 x = cell st x)
    /\ clean_data df st
       = mbind (lift (fillna ""
                  {| nrows := nrows (cell st df);
                     columns :=
                       map (fun p => (SnakeCase.to_snake_case (fst p),
                                      maybe_strip (snd p)))
                           (columns (cell st df)) |}))
               new st3.
Proof.
  intros Hnd. unfold clean_data, copy.
  unfold mbind at 1 2. unfold read at 1. unfold new at 1. cbn [alloc].
  set (n := next_ref st).
  set (st1 := {| next_ref := S n;
                 cell := fun r0 => if Nat.eqb r0 n then cell st df
                                   else cell st r0 |}).
  unfold mbind at 1. unfold read at 1.
  unfold mbind at 1. unfold write at 1.
  assert (H1 : cell st1 n = cell st df)
    by (simpl; rewrite Nat.eqb_refl; reflexivity).
  rewrite H1.
  set (f2 := set_labels (cell st df)
               (map SnakeCase.to_snake_case (labels (cell st df)))).
  set (st2 := update n f2 st1).
  unfold mbind at 1. unfold read at 1.
  assert (H2 : cell st2 n = f2)
    by (simpl; rewrite Nat.eqb_refl; reflexivity).
  rewrite H2.
  assert (Hl2 : labels f2 = snake_labels (cell st df))
    by (apply set_labels_labels).
  assert (Hnd2 : NoDup (map fst (columns f2)))
    by (change (NoDup (labels f2)); rewrite Hl2; exact Hnd).
  destruct (@for_each_strip n (object_labels f2) [] st2 (columns f2)
              (nrows (cell st df))) as (st3 & E & C & N & O).
  - rewrite H2. symmetry. apply stripped_nil.
  - rewrite H2. reflexivity.
  - exact Hnd2.
  - simpl. apply object_labels_nodup. exact Hnd2.
  - apply object_labels_incl.
  - exists st3. destruct O as (N3 & O3 & _).
    split; [rewrite N3; reflexivity|]. split.
    + intros x Hx. unfold allocated in Hx. fold n in Hx.
      assert (Hne : x <> n) by lia.
      rewrite O3 by exact Hne. simpl.
      apply Nat.eqb_neq in Hne. rewrite Hne. reflexivity.
    + unfold mbind at 1. rewrite E.
      unfold mbind at 1. unfold read at 1.
      assert (Hcell : cell st3 n
                      = {| nrows := nrows (cell st df);
                           columns :=
                             map (fun p => (SnakeCase.to_snake_case (fst p),
                                            maybe_strip (snd p)))
                                 (columns (cell st df)) |}).
      { destruct (cell st3 n) as [n3 c3] eqn:Ec. cbn [columns nrows] in C, N.
        subst n3 c3. f_equal. cbn [app]. unfold object_labels.
        rewrite (@stripped_object_labels _ Hnd2).
        unfold f2. rewrite set_labels_columns. rewrite map_map.
        reflexivity. }
      rewrite Hcell. reflexivity.
Qed.

Lemma missing_not_refused (df : frame) :
  missing_in_object_or_float df ->
  Forall (fun p => nullable_integer_with_missing (snd p) = false)
         (columns df).
Proof.
  unfold missing_in_object_or_float. apply Forall_impl. intros [k s] H.
  cbn [snd] in *. unfold nullable_integer_with_missing.
  destruct (has_null s); [|apply andb_false_r].
  destruct (H eq_refl) as [-> | ->]; reflexivity.
Qed.

End CleanerMore.

(** X14. On a table whose normalized headers are distinct, whose object
    columns hold strings and missing values, and in which only object
    and float64 columns hold a missing value, [clean_data] returns a
    table with the same number of rows whose columns are, in order, the
    columns of its argument with the header normalized, the strings
    stripped and every missing value replaced by the empty string. *)
Theorem clean_data_column_by_column
        (df : Pandas.ref) (st : Pandas.store) :
  NoDup (Cleaned.snake_labels (Pandas.cell st df)) ->
  Cleaned.text_columns (Pandas.cell st df) ->
  Cleaned.missing_in_object_or_float (Pandas.cell st df) ->
  exists out st',
    DataCleaner.clean_data df st = (Py.Ok out, st')
    /\ Pandas.columns (Pandas.cell st' out)
       = map Cleaned.clean_column (Pandas.columns (Pandas.cell st df))
    /\ Pandas.nrows (Pandas.cell st' out) = Pandas.nrows (Pandas.cell st df).
Proof.
  intros Hnd _ Hm.
  destruct (clean_data_columns df st Hnd) as (st3 & _ & _ & ->).
  unfold Pandas.mbind, Pandas.lift, Pandas.fillna. cbn [Pandas.columns].
  rewrite (fillna_columns_all SnakeCase.to_snake_case
             (missing_not_refused Hm)).
  cbn [Py.bind]. unfold Pandas.new. cbn [Pandas.alloc].
  eexists. eexists. split; [reflexivity|].
  cbn [Pandas.cell]. rewrite Nat.eqb_refl. split; reflexivity.
Qed.

Lemma clean_data_column_by_column_witness :
  NoDup (Cleaned.snake_labels Fixtures.leads)
  /\ Cleaned.text_columns Fixtures.leads
  /\ Cleaned.missing_in_object_or_float Fixtures.leads
  /\ exists out st',
       DataCleaner.clean_data 0%nat (Fixtures.store_of Fixtures.leads)
       = (Py.Ok out, st')
       /\ Pandas.columns (Pandas.cell st' out)
          = map Cleaned.clean_column (Pandas.columns Fixtures.leads)
       /\ Pandas.nrows (Pandas.cell st' out) = 3%nat.
Proof.
  assert (H1 : NoDup (Cleaned.snake_labels Fixtures.leads)).
  { vm_compute. repeat constructor; simpl; intuition discriminate. }
  assert (H2 : Cleaned.text_columns Fixtures.leads).
  { unfold Cleaned.text_columns. simpl.
    repeat constructor; simpl; intros; try discriminate;
      repeat constructor. }
  assert (H3 : Cleaned.missing_in_object_or_float Fixtures.leads).
  { unfold Cleaned.missing_in_object_or_float. simpl.
    repeat constructor; simpl; intros _; auto. }
  split; [exact H1|]. split; [exact H2|]. split; [exact H3|].
  exact (@clean_data_column_by_column 0%nat
           (Fixtures.store_of Fixtures.leads) H1 H2 H3).
Defined.



Section CleanerErrors.
Import Py Pandas Frame DataCleaner Cleaned.




Lemma snake_twice (s : string) :
  SnakeCase.to_snake_case (SnakeCase.to_snake_case s)
  = SnakeCase.to_snake_case s.
Proof.
  unfold SnakeCase.to_snake_case. rewrite of_to_string.
  rewrite to_snake_case_chars_idem. reflexivity.
Qed.

End CleanerErrors.


(** X16. Cleaning the table [clean_data] returned once more gives the
    same headers again. *)
Theorem clean_data_twice_same_headers
        (df out1 out2 : Pandas.ref) (st st1 st2 : Pandas.store) :
  DataCleaner.clean_data df st = (Py.Ok out1, st1) ->
  DataCleaner.clean_data out1 st1 = (Py.Ok out2, st2) ->
  Pandas.labels (Pandas.cell st2 out2) = Pandas.labels (Pandas.cell st1 out1).
Proof.
  intros H1 H2.
  destruct (proj2 (clean_data_effect _ _ H1) out1 eq_refl) as (_ & L1 & _).
  destruct (proj2 (clean_data_effect _ _ H2) out2 eq_refl) as (_ & L2 & _).
  rewrite L2, L1, map_map. apply map_ext. intros s. apply snake_twice.
Qed.


Lemma clean_data_twice_same_headers_witness :
  exists out1 st1 out2 st2,
    DataCleaner.clean_data 0%nat (Fixtures.store_of Fixtures.leads)
    = (Py.Ok out1, st1)
    /\ DataCleaner.clean_data out1 st1 = (Py.Ok out2, st2)
    /\ Pandas.labels (Pandas.cell st2 out2)
       = Pandas.labels (Pandas.cell st1 out1).
Proof.
  destruct (DataCleaner.clean_data 0%nat (Fixtures.store_of Fixtures.leads))
    as [[out1|e] st1] eqn:E1; [|vm_compute in E1; discriminate E1].
  destruct (DataCleaner.clean_data out1 st1)
    as [[out2|e] st2] eqn:E2.
  - exists out1, st1, out2, st2. split; [reflexivity|].
    split; [exact E2|].
    exact (clean_data_twice_same_headers _ _ E1 E2).
  - exfalso. vm_compute in E1. injection E1 as <- <-.
    vm_compute in E2. discriminate E2.
Defined.

(** ** The value normalizer on the caller's table *)

(** X17. When the lead-source column, labelled once, holds a string,
    [normalize_lead_sources] does not return: the scorer is refused at
    the first string, [TypeError] is raised, and the caller's table and
    every other table are left as they were. *)
Theorem normalize_lead_sources_refuses_strings
        (lib : FuzzLib) (df : Pandas.ref) (st : Pandas.store)
        (col : string) (s : Pandas.series) :
  DataCleaner.find_lead_source_col (Pandas.labels (Pandas.cell st df))
  = Some col ->
  Pandas.count_label col (Pandas.cell st df) = 1%nat ->
  Pandas.assoc col (Pandas.columns (Pandas.cell st df)) = Some s ->
  Exists (fun v => Py.is_str v = true) (Pandas.s_values s) ->
  DataCleaner.normalize_lead_sources lib df st
  = (Py.Raise
       (Py.TypeError
          "token_ratio() got an unexpected keyword argument 'score_cutoff'"),
     st).
Proof.
  intros Hf Hc Hs Hv.
  destruct (find_lead_source_col_named _ Hf) as [_ Hne].
  unfold DataCleaner.normalize_lead_sources.
  unfold Pandas.mbind at 1. unfold Pandas.read at 1. rewrite Hf.
  destruct col as [|c0 col0]; [congruence|].
  unfold Pandas.mbind at 1. unfold Pandas.lift.
  unfold DataCleaner.normalized_column. rewrite Hc.
  cbn [Nat.ltb Nat.leb]. rewrite Hs.
  unfold DataCleaner.normalize_values.
  rewrite (@apply_normalize_value_str lib _ (Pandas.s_values s)); auto.
  apply build_keys_nonempty. discriminate.
Qed.

Lemma normalize_lead_sources_refuses_strings_witness :
  DataCleaner.normalize_lead_sources RapidFuzz.lib 0%nat
    (Fixtures.store_of Fixtures.leads)
  = (Py.Raise
       (Py.TypeError
          "token_ratio() got an unexpected keyword argument 'score_cutoff'"),
     Fixtures.store_of Fixtures.leads).
Proof.
  apply (@normalize_lead_sources_refuses_strings RapidFuzz.lib 0%nat
           (Fixtures.store_of Fixtures.leads) "Lead Source"%string
           Fixtures.lead_column); try reflexivity.
  left. reflexivity.
Defined.

(** ** The tie-break of the best match *)

Section TieBreak.
Import Py Process ColumnMatcher Best.
Variable scorer : Scorer.
Variable query : string.

(** The running best of a scan that has not stopped: the first maximum of
    what has been seen, below the perfect score. *)
Let running (seen : list string) (best : option hit) : Prop :=
  match best with
  | None => seen = []
  | Some (bc, bs, _) =>
      bs < 100 /\ first_maximum scorer query seen bc bs
  end.

Lemma extractOne_from_first_maximum :
  forall choices seen i best m sc j,
    (forall c, In c choices -> scorer query c <= 100) ->
    running seen best ->
    extractOne_from scorer query choices i best = Some (m, sc, j) ->
    first_maximum scorer query (seen ++ choices) m sc.
Proof.
  induction choices as [|c rest IH]; intros seen i best m sc j Hb Hrun.
  - cbn [extractOne_from]. intros ->. rewrite app_nil_r.
    exact (proj2 Hrun).
  - cbn [extractOne_from].
    assert (Hc : scorer query c <= 100) by (apply Hb; left; reflexivity).
    assert (Hrest : forall x, In x rest -> scorer query x <= 100)
      by (intros x Hx; apply Hb; right; exact Hx).
    (* what the step makes of the running best *)
    assert (Hstep :
      forall b', b' = match best with
                      | None => Some (c, scorer query c, i)
                      | Some (_, bscore, _) =>
                          if Qle_bool (scorer query c) bscore then best
                          else Some (c, scorer query c, i)
                      end ->
      exists bc bs bi,
        b' = Some (bc, bs, bi)
        /\ first_maximum scorer query (seen ++ [c]) bc bs
        /\ (scorer query c < 100 -> bs < 100)
        /\ (scorer query c == 100 -> bs == 100)).
    { intros b' ->. destruct best as [[[bc bs] bi]|].
      - destruct Hrun as (Hlt & Hs & pre & post & -> & Hpre & Hpost).
        destruct (Qle_bool (scorer query c) bs) eqn:E.
        + apply Qle_bool_iff in E.
          exists bc, bs, bi. split; [reflexivity|]. split; [|split].
          * split; [exact Hs|]. exists pre, (post ++ [c])%list.
            split; [rewrite <- app_assoc; reflexivity|].
            split; [exact Hpre|].
            intros x Hx. apply in_app_or in Hx.
            destruct Hx as [Hx | [<- | []]]; [apply Hpost; exact Hx | exact E].
          * intros _. exact Hlt.
          * intros H100. exfalso. apply (Qlt_not_le _ _ Hlt).
            rewrite <- H100. exact E.
        + assert (Hgt : bs < scorer query c).
          { apply Qnot_le_lt. intros H. apply Qle_bool_iff in H. congruence. }
          exists c, (scorer query c), i. split; [reflexivity|].
          split; [|split; [auto | auto]].
          split; [reflexivity|]. exists (pre ++ bc :: post)%list, [].
          split; [reflexivity|]. split; [|intros x []].
          intros x Hx. apply in_app_or in Hx.
          destruct Hx as [Hx | [<- | Hx]].
          * eapply Qlt_trans; [apply Hpre; exact Hx | exact Hgt].
          * rewrite <- Hs. exact Hgt.
          * eapply Qle_lt_trans; [apply Hpost; exact Hx | exact Hgt].
      - simpl in Hrun. subst seen.
        exists c, (scorer query c), i. split; [reflexivity|].
        split; [|split; [auto | auto]].
        split; [reflexivity|]. exists [], []. split; [reflexivity|].
        split; intros x []. }
    destruct (Hstep _ eq_refl) as (bc & bs & bi & Eb & Hfm & Hlt & H100).
    rewrite Eb.
    destruct (Qeq_bool (scorer query c) 100) eqn:E.
    + apply Qeq_bool_iff in E. intros [= <- <- <-].
      destruct Hfm as (Hs & pre & post & Hl & Hpre & Hpost).
      split; [exact Hs|]. exists pre, (post ++ rest)%list.
      split; [|split; [exact Hpre|]].
      * change (c :: rest) with ([c] ++ rest)%list.
        rewrite app_assoc, Hl, <- app_assoc. reflexivity.
      * intros x Hx. apply in_app_or in Hx.
        destruct Hx as [Hx | Hx]; [apply Hpost; exact Hx|].
        rewrite (H100 E). apply Hrest. exact Hx.
    + intros H.
      assert (Hne : ~ scorer query c == 100).
      { intros H'. apply Qeq_bool_iff in H'. congruence. }
      assert (Hc' : scorer query c < 100).
      { apply Qle_lteq in Hc. destruct Hc; [assumption | contradiction]. }
      change (c :: rest) with ([c] ++ rest)%list. rewrite app_assoc.
      apply (IH (seen ++ [c])%list (S i) (Some (bc, bs, bi)) m sc j Hrest);
        [|exact H].
      split; [apply Hlt; exact Hc' | exact Hfm].
Qed.

End TieBreak.

(** X18. Under a scorer that stays within 100, [best_match_score] returns
    the first of the choices that reaches the largest score: every choice
    before it scores strictly less, every choice after it scores no
    more. *)
Theorem best_match_score_first_maximum
        (scorer : Process.Scorer) (query : string)
        (choices : list string) (m : string) (sc : Q) :
  (forall c, In c choices -> scorer query c <= 100) ->
  ColumnMatcher.best_match_score query choices scorer = Py.Ok (m, sc) ->
  Best.first_maximum scorer query choices m sc.
Proof.
  intros Hb. unfold ColumnMatcher.best_match_score, Process.extractOne.
  destruct (Process.extractOne_from scorer query choices 0 None)
    as [[[m' sc'] j]|] eqn:E; [|discriminate].
  intros [= <- <-].
  exact (@extractOne_from_first_maximum scorer query choices [] 0%nat None
           m' sc' j Hb eq_refl E).
Qed.

Lemma best_match_score_first_maximum_witness :
  exists sc,
    ColumnMatcher.best_match_score "walk in"%string
      ["In Walk"; "walk in"; "in walk"]%string
      (ColumnMatcher.token_ratio RapidFuzz.lib)
    = Py.Ok ("walk in"%string, sc)
    /\ Best.first_maximum (ColumnMatcher.token_ratio RapidFuzz.lib)
         "walk in"%string ["In Walk"; "walk in"; "in walk"]%string
         "walk in"%string sc.
Proof.
  eexists. 
  assert (E : ColumnMatcher.best_match_score "walk in"%string
                ["In Walk"; "walk in"; "in walk"]%string
                (ColumnMatcher.token_ratio RapidFuzz.lib)
              = Py.Ok ("walk in"%string, 1400 # 14))
    by (vm_compute; reflexivity).
  split; [exact E|].
  apply (@best_match_score_first_maximum _ _ _ _ _); [|exact E].
  intros c Hc. simpl in Hc.
  repeat (destruct Hc as [<- | Hc]; [vm_compute; discriminate|]).
  destruct Hc.
Defined.

(** ** Format detection *)

Section FormatFacts.
Import FormatDetection Best.

Lemma indicator_count_bound indicators cols :
  (indicator_count indicators cols <= List.length indicators)%nat.
Proof. unfold indicator_count. apply filter_length_le. Qed.

(** With five indicators the ratio passes 0.6 from four matches on. *)
Lemma above_threshold_five (k : nat) :
  (k <= 5)%nat ->
  above_threshold (Qmake (Z.of_nat k) (Pos.of_nat 5)) = Nat.leb 4 k.
Proof.
  intros H.
  destruct k as [|[|[|[|[|[|k]]]]]]; try reflexivity. lia.
Qed.

Lemma match_ratio_simple cols :
  above_threshold (match_ratio simple_indicators cols)
  = Nat.leb 4 (indicator_count simple_indicators cols).
Proof.
  apply (above_threshold_five
           (k := indicator_count simple_indicators cols)).
  apply (indicator_count_bound simple_indicators cols).
Qed.

Lemma match_ratio_detailed cols :
  above_threshold (match_ratio detailed_indicators cols)
  = Nat.leb 4 (indicator_count detailed_indicators cols).
Proof.
  apply (above_threshold_five
           (k := indicator_count detailed_indicators cols)).
  apply (indicator_count_bound detailed_indicators cols).
Qed.

End FormatFacts.

(** X19. The format detection needs four of the five indicators: the
    answer is "simple" exactly when at least four simple indicators are
    among the lower-cased column names, "detailed" exactly when fewer
    than four simple and at least four detailed indicators are, and
    "unknown" otherwise; three indicators out of five are not enough. *)
Theorem detect_dealership_data_format_threshold (cols : list string) :
  let simple :=
    Best.indicator_count FormatDetection.simple_indicators cols in
  let detailed :=
    Best.indicator_count FormatDetection.detailed_indicators cols in
  (FormatDetection.detect_dealership_data_format cols = "simple"%string
   <-> (4 <= simple)%nat)
  /\ (FormatDetection.detect_dealership_data_format cols = "detailed"%string
      <-> (simple < 4)%nat /\ (4 <= detailed)%nat)
  /\ (FormatDetection.detect_dealership_data_format cols = "unknown"%string
      <-> (simple < 4)%nat /\ (detailed < 4)%nat).
Proof.
  cbv zeta. unfold FormatDetection.detect_dealership_data_format.
  rewrite match_ratio_simple, match_ratio_detailed.
  destruct (Nat.leb 4 (Best.indicator_count
                         FormatDetection.simple_indicators cols)) eqn:Es;
    [apply Nat.leb_le in Es | apply Nat.leb_gt in Es].
  - repeat split; intros; try discriminate; try lia.
    all: try (match goal with H : _ /\ _ |- _ => destruct H end; lia).
  - destruct (Nat.leb 4 (Best.indicator_count
                           FormatDetection.detailed_indicators cols)) eqn:Ed;
      [apply Nat.leb_le in Ed | apply Nat.leb_gt in Ed].
    + repeat split; intros; try discriminate; try lia.
      all: try (match goal with H : _ /\ _ |- _ => destruct H end; lia).
    + repeat split; intros; try discriminate; try lia.
      all: try (match goal with H : _ /\ _ |- _ => destruct H end; lia).
Qed.

(** Four simple indicators, in any letter case, are enough; three are
    not. *)
Example detect_dealership_data_format_examples :
  FormatDetection.detect_dealership_data_format MoreFixtures.four_simple
  = "simple"%string
  /\ FormatDetection.detect_dealership_data_format MoreFixtures.three_simple
     = "unknown"%string.
Proof. split; vm_compute; reflexivity. Qed.

(** ** Column types *)

Section ColumnTypesFacts.
Import Py Pandas ColumnTypes Typed.
Variable to_datetime_ok : list value -> bool.

Lemma dict_set_keys_in {V} (k k' : string) (v : V) (d : dict V) :
  In k (dict_keys (dict_set k' v d)) <-> k = k' \/ In k (dict_keys d).
Proof.
  induction d as [|[k0 v0] d IH]; simpl.
  - intuition congruence.
  - destruct (String.eqb k0 k') eqn:E; simpl.
    + apply String.eqb_eq in E. subst k0. intuition congruence.
    + rewrite IH. intuition congruence.
Qed.

(** The test on the values that are present: it goes through unless
    one of them is an infinity. *)
Lemma apply_is_whole_cases vals :
  Forall (fun v => is_str v = false) vals ->
  (existsb is_inf vals = false
   /\ exists ws, apply_is_whole (dropna vals) = Ok ws)
  \/ (existsb is_inf vals = true
      /\ exists msg,
           apply_is_whole (dropna vals) = Raise (OverflowError msg)).
Proof.
  unfold dropna.
  induction 1 as [|v rest Hv _ IH]; [left; simpl; eauto|].
  destruct v; try discriminate Hv;
    cbn [filter isnull negb existsb is_inf orb].
  - exact IH.
  - exact IH.
  - exact IH.
  - cbn [apply_is_whole is_whole bind].
    destruct IH as [[E [ws ->]] | [E [msg ->]]]; cbn [bind];
      [left | right]; split; eauto.
  - cbn [apply_is_whole is_whole bind].
    destruct IH as [[E [ws ->]] | [E [msg ->]]]; cbn [bind];
      [left | right]; split; eauto.
  - right. split; [reflexivity|].
    cbn [apply_is_whole is_whole bind]. eauto.
  - cbn [apply_is_whole is_whole bind].
    destruct IH as [[E [ws ->]] | [E [msg ->]]]; cbn [bind];
      [left | right]; split; eauto.
Qed.

Lemma column_type_cases s :
  numeric_values s ->
  (holds_infinity s = false /\ exists t, column_type to_datetime_ok s = Ok t)
  \/ (holds_infinity s = true
      /\ exists msg,
           column_type to_datetime_ok s = Raise (OverflowError msg)).
Proof.
  intros Hn. unfold column_type, holds_infinity.
  destruct (is_numeric_dtype (s_dtype s)) eqn:E; cbn [andb].
  - destruct (apply_is_whole_cases (Hn E))
      as [[-> [ws ->]] | [-> [msg ->]]]; cbn [bind]; eauto.
  - left. split; [reflexivity|].
    destruct (is_datetime64_dtype (s_dtype s)); [eauto|].
    destruct (is_object_dtype (s_dtype s)); eauto.
Qed.

(** The dictionary after the listed columns have been typed. *)
Lemma column_types_loop_ok df cols :
  NoDup (labels df) ->
  incl cols (labels df) ->
  (forall k s, In k cols -> assoc k (columns df) = Some s ->
               exists t, column_type to_datetime_ok s = Ok t) ->
  forall acc,
    exists d,
      column_types_loop to_datetime_ok df cols acc = Ok d
      /\ (forall k, In k (dict_keys d) <-> In k cols \/ In k (dict_keys acc))
      /\ (forall k s, In k cols -> assoc k (columns df) = Some s ->
                      exists t, column_type to_datetime_ok s = Ok t
                                /\ dict_get k d = Some t)
      /\ (forall k, ~ In k cols -> dict_get k d = dict_get k acc).
Proof.
  intros Hnd. induction cols as [|col rest IH]; intros Hincl Hty acc;
    cbn [column_types_loop].
  - exists acc. split; [reflexivity|]. split.
    + intros k. simpl. split; [intros H; right; exact H|].
      intros [[] | H]. exact H.
    + split; [intros k s Hk; destruct Hk | intros k _; reflexivity].
  - assert (Hin : In col (labels df)) by (apply Hincl; left; reflexivity).
    destruct (@getitem_nodup _ _ Hnd Hin) as (s & Hs & Hg).
    rewrite Hg. cbn [bind].
    destruct (Hty col s (or_introl eq_refl) Hs) as [t Ht].
    rewrite Ht. cbn [bind].
    destruct (IH (fun x Hx => Hincl x (or_intror Hx))
                 (fun k s0 Hk => Hty k s0 (or_intror Hk))
                 (dict_set col t acc))
      as (d & E & K & G & O).
    exists d. split; [exact E|]. split; [|split].
    + intros k. rewrite K, dict_set_keys_in. simpl. intuition congruence.
    + intros k s' [<- | Hk] Hs'.
      * destruct (in_dec string_dec col rest) as [Hr | Hr].
        -- apply G; assumption.
        -- rewrite Hs in Hs'. injection Hs' as <-. exists t.
           split; [exact Ht|].
           rewrite (O _ Hr). apply dict_get_set_same.
      * apply G; assumption.
    + intros k Hk. rewrite O by (intros H; apply Hk; right; exact H).
      apply dict_get_set_other. intros ->. apply Hk. left. reflexivity.
Qed.

(** An infinity in one of the listed columns stops the loop. *)
Lemma column_types_loop_overflow df cols :
  NoDup (labels df) ->
  incl cols (labels df) ->
  (forall k s, assoc k (columns df) = Some s -> numeric_values s) ->
  (exists k s, In k cols /\ assoc k (columns df) = Some s
               /\ holds_infinity s = true) ->
  forall acc,
    exists msg,
      column_types_loop to_datetime_ok df cols acc
      = Raise (OverflowError msg).
Proof.
  intros Hnd. induction cols as [|col rest IH];
    intros Hincl Hnum (k & s & Hk & Hs & Hinf) acc; [destruct Hk|].
  cbn [column_types_loop].
  assert (Hin : In col (labels df)) by (apply Hincl; left; reflexivity).
  destruct (@getitem_nodup _ _ Hnd Hin) as (s0 & Hs0 & Hg).
  rewrite Hg. cbn [bind].
  destruct (column_type_cases (Hnum _ _ Hs0))
    as [[Hfin [t ->]] | [_ [msg ->]]]; cbn [bind]; [|eauto].
  apply IH; [intros x Hx; apply Hincl; right; exact Hx | exact Hnum |].
  exists k, s. split; [|auto].
  destruct Hk as [<- | Hk]; [|exact Hk].
  rewrite Hs in Hs0. injection Hs0 as <-. congruence.
Qed.

Lemma dropna_all_null vals :
  Forall (fun v => isnull v = true) vals -> dropna vals = [].
Proof.
  induction 1 as [|v l Hv _ IH]; simpl; [reflexivity|].
  rewrite Hv. simpl. exact IH.
Qed.

End ColumnTypesFacts.

(** X20. On a table with distinct labels whose numeric columns hold no
    string, [get_column_types] returns, when no numeric column holds an
    infinity, a dictionary whose keys are the labels and which gives
    every column the type read off that column alone; when a numeric
    column holds an infinity it raises [OverflowError]. A numeric column,
    the boolean type included, without any value that is present is typed
    "integer". *)
Theorem get_column_types_per_column
        (to_datetime_ok : list Py.value -> bool) (df : Pandas.frame) :
  NoDup (Pandas.labels df) ->
  Forall (fun p => Typed.numeric_values (snd p)) (Pandas.columns df) ->
  (Forall (fun p => Typed.holds_infinity (snd p) = false)
          (Pandas.columns df) ->
   exists d,
     ColumnTypes.get_column_types to_datetime_ok df = Py.Ok d
     /\ (forall k, In k (Py.dict_keys d) <-> In k (Pandas.labels df))
     /\ forall k s,
          Pandas.assoc k (Pandas.columns df) = Some s ->
          exists t,
            ColumnTypes.column_type to_datetime_ok s = Py.Ok t
            /\ Py.dict_get k d = Some t)
  /\ (Exists (fun p => Typed.holds_infinity (snd p) = true)
             (Pandas.columns df) ->
      exists msg,
        ColumnTypes.get_column_types to_datetime_ok df
        = Py.Raise (Py.OverflowError msg))
  /\ forall s,
       ColumnTypes.is_numeric_dtype (Pandas.s_dtype s) = true ->
       Forall (fun v => Py.isnull v = true) (Pandas.s_values s) ->
       ColumnTypes.column_type to_datetime_ok s = Py.Ok "integer"%string.
Proof.
  intros Hnd Hnum.
  assert (Hnum' : forall k s,
             Pandas.assoc k (Pandas.columns df) = Some s ->
             Typed.numeric_values s).
  { intros k s Hs. apply assoc_in_map in Hs.
    rewrite Forall_forall in Hnum. exact (Hnum _ Hs). }
  split; [|split].
  - intros Hfin.
    destruct (@column_types_loop_ok to_datetime_ok df (Pandas.labels df)
                Hnd (incl_refl _)) with (acc := @nil (string * string))
      as (d & E & K & G & _).
    + intros k s _ Hs.
      destruct (column_type_cases to_datetime_ok (Hnum' _ _ Hs))
        as [[_ Ht] | [Hinf _]]; [exact Ht|].
      apply assoc_in_map in Hs. rewrite Forall_forall in Hfin.
      specialize (Hfin _ Hs). cbn [snd] in Hfin. congruence.
    + exists d. split; [exact E|]. split.
      * intros k. rewrite K. simpl. intuition.
      * intros k s Hs. apply G; [|exact Hs].
        apply assoc_in_map in Hs. unfold Pandas.labels.
        change k with (fst (k, s)). apply in_map. exact Hs.
  - intros Hex. apply Exists_exists in Hex.
    destruct Hex as ([k s] & Hin & Hinf). cbn [snd] in Hinf.
    apply (@column_types_loop_overflow to_datetime_ok df (Pandas.labels df)
             Hnd (incl_refl _) Hnum').
    exists k, s. split; [|split; [|exact Hinf]].
    + unfold Pandas.labels. change k with (fst (k, s)). apply in_map.
      exact Hin.
    + apply in_nodup_assoc; assumption.
  - intros s Hn Hall. unfold ColumnTypes.column_type.
    rewrite Hn, (dropna_all_null Hall). reflexivity.
Qed.

Lemma get_column_types_per_column_witness :
  (NoDup (Pandas.labels Fixtures.leads)
   /\ exists d,
        ColumnTypes.get_column_types (fun _ => false) Fixtures.leads
        = Py.Ok d
        /\ d = [("Lead Source", "string"); ("Sale Price", "integer")]%string)
  /\ (NoDup (Pandas.labels MoreFixtures.with_infinity)
      /\ exists msg,
           ColumnTypes.get_column_types (fun _ => false)
             MoreFixtures.with_infinity
           = Py.Raise (Py.OverflowError msg)).
Proof.
  split.
  - assert (H : NoDup (Pandas.labels Fixtures.leads)).
    { vm_compute. repeat constructor; simpl; intuition discriminate. }
    assert (Hn : Forall (fun p => Typed.numeric_values (snd p))
                        (Pandas.columns Fixtures.leads)).
    { simpl. repeat apply Forall_cons; try apply Forall_nil;
        intros Hd; try discriminate Hd; simpl; repeat constructor. }
    split; [exact H|].
    destruct (proj1 (@get_column_types_per_column (fun _ => false)
                       Fixtures.leads H Hn))
      as (d & E & _).
    { simpl. repeat constructor. }
    exists d. split; [exact E|].
    vm_compute in E. injection E as <-. reflexivity.
  - assert (H : NoDup (Pandas.labels MoreFixtures.with_infinity)).
    { vm_compute. repeat constructor; simpl; intuition discriminate. }
    assert (Hn : Forall (fun p => Typed.numeric_values (snd p))
                        (Pandas.columns MoreFixtures.with_infinity)).
    { simpl. repeat apply Forall_cons; try apply Forall_nil;
        intros Hd; simpl; repeat constructor. }
    split; [exact H|].
    apply (proj1 (proj2 (@get_column_types_per_column (fun _ => false)
                           MoreFixtures.with_infinity H Hn))).
    left. reflexivity.
Defined.

(** ** The handlers *)

Section HandlerFacts.
Import Py Pandas Routes.
Variable lib : FuzzLib.
Variable env : DataLoader.Env.

(** The value of a successful call of the loader is a tuple of three. *)
Lemma call_load_csv_file_ok file_path t :
  call_load_csv_file lib env file_path = Ok t ->
  exists df mapping mapping_meta,
    DataLoader.load_csv_file lib env file_path = Ok (df, mapping, mapping_meta)
    /\ t = OTuple [OFrame df; OMapping mapping; OMeta mapping_meta].
Proof.
  unfold call_load_csv_file.
  destruct (DataLoader.load_csv_file lib env file_path)
    as [[[df mapping] meta]|e]; cbn [bind]; [|discriminate].
  intros [= <-]. eauto.
Qed.

End HandlerFacts.

(** X21. [upload_file] never returns a response: a name that does not
    end in ".csv" or ".CSV" is refused with status 400, and for any other
    name the handler ends in an error. When the file is saved and its
    sample has a column, the loader raises the [TypeError] of the column
    reconciliation, and after the cleanup the handler answers with status
    500 and that error as detail; were the loader to return, its three
    values would not unpack into two names. *)
Theorem upload_file_never_returns
        (lib : FuzzLib) (env : DataLoader.Env) (Response : Type)
        (makedirs : Py.result unit)
        (save_upload : string -> Py.result unit)
        (finish : Routes.obj -> Routes.obj -> Py.result Response)
        (cleanup : string -> Py.result unit)
        (filename file_path : string) :
  let outcome :=
    Routes.upload_file lib env makedirs save_upload finish cleanup
                       filename file_path in
  (forall r, outcome <> Routes.Returned r)
  /\ ((Routes.endswith filename ".csv" || Routes.endswith filename ".CSV")%bool
      = false ->
      outcome = Routes.HTTPException 400 "Only CSV files are supported")
  /\ (forall sample df_sample col rest,
         (Routes.endswith filename ".csv"
          || Routes.endswith filename ".CSV")%bool = true ->
         makedirs = Py.Ok tt ->
         save_upload file_path = Py.Ok tt ->
         DataLoader.path_exists env file_path = true ->
         DataLoader.read_head env file_path = Py.Ok sample ->
         DataLoader.read_csv_sample env file_path
           (DataLoader.sniff_delimiter sample) = Py.Ok df_sample ->
         Pandas.labels df_sample = col :: rest ->
         cleanup file_path = Py.Ok tt ->
         outcome
         = Routes.HTTPException 500
             "Error processing file: token_ratio() got an unexpected keyword argument 'score_cutoff'").
Proof.
  cbv zeta. unfold Routes.upload_file. split; [|split].
  - intros r.
    destruct (Routes.endswith filename ".csv"
              || Routes.endswith filename ".CSV")%bool; cbn [negb];
      [|discriminate].
    destruct makedirs as [[]|e]; [|discriminate].
    destruct (save_upload file_path) as [[]|e]; cbn [Py.bind].
    + destruct (Routes.call_load_csv_file lib env file_path) as [t|e] eqn:E;
        cbn [Py.bind].
      * destruct (call_load_csv_file_ok _ _ _ E)
          as (df & mapping & meta & _ & ->).
        cbn [Routes.unpack2 Routes.iterate Py.bind].
        destruct (cleanup file_path); discriminate.
      * destruct (cleanup file_path); discriminate.
    + destruct (cleanup file_path); discriminate.
  - intros ->. reflexivity.
  - intros sample df_sample col rest -> -> -> Hp Hh Hs Hl ->.
    cbn [negb Py.bind]. unfold Routes.call_load_csv_file.
    rewrite (@load_csv_file_refused lib env file_path sample df_sample
               col rest Hp Hh Hs Hl).
    reflexivity.
Qed.

Lemma upload_file_never_returns_witness :
  Routes.upload_file RapidFuzz.lib
    (Fixtures.file_env Fixtures.two_columns Fixtures.to_Int64)
    (Py.Ok tt) (fun _ => Py.Ok tt) (fun _ _ => Py.Ok tt)
    (fun _ => Py.Ok tt) "sales.csv" "uploads/1.csv"
  = Routes.HTTPException 500
      "Error processing file: token_ratio() got an unexpected keyword argument 'score_cutoff'".
Proof.
  refine (proj2 (proj2 (@upload_file_never_returns RapidFuzz.lib
                   (Fixtures.file_env Fixtures.two_columns Fixtures.to_Int64)
                   unit (Py.Ok tt) (fun _ => Py.Ok tt) (fun _ _ => Py.Ok tt)
                   (fun _ => Py.Ok tt) "sales.csv" "uploads/1.csv"))
                "price,qty"%string Fixtures.two_columns "price"%string
                ["qty"%string] _ _ _ _ _ _ _ _); reflexivity.
Defined.

(** X22. [analyze] never returns a response either: it ends with status
    404 when there is no metadata, 400 when the upload is not marked as
    processed, and 500 otherwise. When the processed file exists and its
    sample has a column, the detail of the 500 is the [TypeError] of the
    column reconciliation; were the loader to return, the tuple it hands
    back would have no [to_string]. *)
Theorem analyze_never_returns
        (lib : FuzzLib) (env : DataLoader.Env)
        (Metadata Request Response : Type)
        (load_metadata : string -> option Metadata)
        (is_empty processed : Metadata -> bool)
        (processed_path : Metadata -> Py.result string)
        (render : Pandas.frame -> string)
        (finish : string -> Request -> string -> Py.result Response)
        (upload_id : string) (request : Request) :
  let outcome :=
    Routes.analyze lib env load_metadata is_empty processed processed_path
                   render finish upload_id request in
  (exists status detail,
      outcome = Routes.HTTPException status detail
      /\ (status = 404%nat \/ status = 400%nat \/ status = 500%nat))
  /\ (forall metadata path sample df_sample col rest,
         load_metadata upload_id = Some metadata ->
         is_empty metadata = false ->
         processed metadata = true ->
         processed_path metadata = Py.Ok path ->
         DataLoader.path_exists env path = true ->
         DataLoader.read_head env path = Py.Ok sample ->
         DataLoader.read_csv_sample env path
           (DataLoader.sniff_delimiter sample) = Py.Ok df_sample ->
         Pandas.labels df_sample = col :: rest ->
         outcome
         = Routes.HTTPException 500
             "Error analyzing data: token_ratio() got an unexpected keyword argument 'score_cutoff'").
Proof.
  cbv zeta. unfold Routes.analyze. split.
  - destruct (load_metadata upload_id) as [metadata|]; [|eauto 6].
    destruct (is_empty metadata); [eauto 6|].
    destruct (processed metadata); cbn [negb]; [|eauto 6].
    destruct (processed_path metadata) as [path|e]; cbn [Py.bind];
      [|eauto 6].
    destruct (Routes.call_load_csv_file lib env path) as [t|e] eqn:E;
      cbn [Py.bind]; [|eauto 6].
    destruct (call_load_csv_file_ok _ _ _ E)
      as (df & mapping & meta & _ & ->).
    cbn [Routes.to_string Py.bind]. eauto 6.
  - intros metadata path sample df_sample col rest -> -> -> -> Hp Hh Hs Hl.
    cbn [negb Py.bind]. unfold Routes.call_load_csv_file.
    rewrite (@load_csv_file_refused lib env path sample df_sample
               col rest Hp Hh Hs Hl).
    reflexivity.
Qed.

Lemma analyze_never_returns_witness :
  Routes.analyze RapidFuzz.lib
    (Fixtures.file_env Fixtures.two_columns Fixtures.to_Int64)
    (fun _ => Some "uploads/1_processed.csv"%string)
    (fun _ => false) (fun _ => true) (fun path => Py.Ok path)
    (fun _ => ""%string)
    (fun _ (_ : unit) _ => Py.Ok tt) "1" tt
  = Routes.HTTPException 500
      "Error analyzing data: token_ratio() got an unexpected keyword argument 'score_cutoff'".
Proof.
  refine (proj2 (@analyze_never_returns RapidFuzz.lib
                   (Fixtures.file_env Fixtures.two_columns Fixtures.to_Int64)
                   string unit unit
                   (fun _ => Some "uploads/1_processed.csv"%string)
                   (fun _ => false) (fun _ => true) (fun path => Py.Ok path)
                   (fun _ => ""%string)
                   (fun _ (_ : unit) _ => Py.Ok tt) "1"%string tt)
                "uploads/1_processed.csv"%string
                "uploads/1_processed.csv"%string
                "price,qty"%string Fixtures.two_columns "price"%string
                ["qty"%string] _ _ _ _ _ _ _ _); reflexivity.
Defined.

(** ** Recognising the lead-source column *)

Section LeadSourceNames.
Import Py DataCleaner.

Lemma is_lead_source_name_spec (col : string) :
  is_lead_source_name col = true
  <-> lower_underscored col = "leadsource"%string
      \/ lower_underscored col = "lead_source"%string.
Proof.
  unfold is_lead_source_name.
  change (map lower_underscored possible_names)
    with ["leadsource"; "lead_source"; "lead_source"; "lead_source"]%string.
  cbn [existsb]. rewrite !orb_true_iff, !String.eqb_eq.
  intuition discriminate.
Qed.

End LeadSourceNames.

(** X24. The lead-source column is the first column whose name, in lower
    case and with every space turned into an underscore, reads
    "leadsource" or "lead_source"; without such a column none is
    found. *)
Theorem find_lead_source_col_first_recognised (cols : list string) :
  let recognised := fun col =>
    DataCleaner.lower_underscored col = "leadsource"%string
    \/ DataCleaner.lower_underscored col = "lead_source"%string in
  (forall col,
      DataCleaner.find_lead_source_col cols = Some col
      <-> exists pre post,
            cols = (pre ++ col :: post)%list
            /\ recognised col
            /\ forall c, In c pre -> ~ recognised c)
  /\ (DataCleaner.find_lead_source_col cols = None
      <-> forall c, In c cols -> ~ recognised c).
Proof.
  cbv zeta. unfold DataCleaner.find_lead_source_col.
  induction cols as [|c cols [IHs IHn]]; cbn [find].
  - split.
    + intros col. split; [discriminate|].
      intros (pre & post & H & _). destruct pre; discriminate H.
    + split; [intros _ c [] | reflexivity].
  - destruct (DataCleaner.is_lead_source_name c) eqn:E.
    + apply is_lead_source_name_spec in E. split.
      * intros col. split.
        -- intros [= <-]. exists [], cols. split; [reflexivity|].
           split; [exact E | intros x []].
        -- intros (pre & post & H & Hr & Hpre).
           destruct pre as [|p pre]; simpl in H.
           ++ injection H as -> _. reflexivity.
           ++ injection H as -> _. exfalso.
              apply (Hpre p); [left; reflexivity | exact E].
      * split; [discriminate|]. intros H. exfalso.
        apply (H c); [left; reflexivity | exact E].
    + assert (Hc : ~ (DataCleaner.lower_underscored c = "leadsource"%string
                      \/ DataCleaner.lower_underscored c
                         = "lead_source"%string)).
      { intros H. apply is_lead_source_name_spec in H. congruence. }
      split.
      * intros col. rewrite IHs. split.
        -- intros (pre & post & -> & Hr & Hpre).
           exists (c :: pre), post. split; [reflexivity|].
           split; [exact Hr|].
           intros x [<- | Hx]; [exact Hc | apply Hpre; exact Hx].
        -- intros (pre & post & H & Hr & Hpre).
           destruct pre as [|p pre]; simpl in H.
           ++ injection H as -> _. contradiction.
           ++ injection H as -> ->. exists pre, post.
              split; [reflexivity|]. split; [exact Hr|].
              intros x Hx. apply Hpre. right. exact Hx.
      * rewrite IHn. split.
        -- intros H x [<- | Hx]; [exact Hc | apply H; exact Hx].
        -- intros H x Hx. apply H. right. exact Hx.
Qed.
